(** * Nyx agent: command validation, plan normalisation, execution and
      the control loop, embedded in Rocq.

    Python [str] values are modelled by [string] holding the UTF-8 encoding
    of the text; substring tests, tokenisation and the length of a JSON
    serialisation are all defined so that they agree with Python on that
    encoding. *)

From Stdlib Require Import String Ascii List ZArith Bool Lia.
From Stdlib Require Import DecimalString.
From Stdlib Require Import Floats.SpecFloat.
Import ListNotations.

Set Warnings "-register-all".

Local Open Scope string_scope.
Local Open Scope Z_scope.

(* ================================================================= *)
(** ** Python string primitives *)

Module PyStr.

(** [needle in hay] for two Python strings. *)
Fixpoint contains (needle hay : string) : bool :=
  if String.prefix needle hay then true
  else match hay with
       | EmptyString => false
       | String _ rest => contains needle rest
       end.

(** [x in S] for a Python set (or list) of strings. *)
Definition mem (x : string) (S : list string) : bool :=
  existsb (String.eqb x) S.

(** [sep.join(parts)]. *)
Definition join (sep : string) (parts : list string) : string :=
  String.concat sep parts.

(** [any(flag in arg for flag in flags)]. *)
Definition any_contained (flags : list string) (arg : string) : bool :=
  existsb (fun flag => contains flag arg) flags.

(** The double-quote character as a one-character string. *)
Definition dq : string := String (ascii_of_nat 34) EmptyString.

(** [str(n)] for an integer. *)
Definition of_Z (n : Z) : string := NilZero.string_of_int (Z.to_int n).

End PyStr.

(* ================================================================= *)
(** ** Exceptions and JSON values *)

Module Py.

(** The exceptions the modelled code can raise. *)
Inductive exn : Type :=
| TypeError | ValueError | IndexError | AttributeError | KeyError.

Inductive result (A : Type) : Type :=
| Ok (a : A)
| Raise (e : exn).
Arguments Ok {A} a.
Arguments Raise {A} e.

Definition bind {A B} (r : result A) (k : A -> result B) : result B :=
  match r with
  | Ok a => k a
  | Raise e => Raise e
  end.

Definition fmap {A B} (f : A -> B) (r : result A) : result B :=
  bind r (fun a => Ok (f a)).

(** What [json.loads] can produce. Objects keep their keys in insertion
    order; a float is given by its IEEE-754 description. *)
Inductive value : Type :=
| VNone
| VBool (b : bool)
| VInt (n : Z)
| VFloat (f : spec_float)
| VStr (s : string)
| VList (items : list value)
| VDict (entries : list (string * value)).

Definition dict : Type := list (string * value).

(** [d.get(k)]. *)
Fixpoint dict_get (k : string) (d : dict) : option value :=
  match d with
  | [] => None
  | (k', v) :: rest => if String.eqb k' k then Some v else dict_get k rest
  end.

(** [d.get(k, default)]. *)
Definition dict_get_default (k : string) (default : value) (d : dict) : value :=
  match dict_get k d with
  | Some v => v
  | None => default
  end.

(** [k in d]. *)
Definition has_key (k : string) (d : dict) : bool :=
  match dict_get k d with
  | Some _ => true
  | None => false
  end.

(** [d[k] = v]: an existing key keeps its position. *)
Fixpoint dict_set (k : string) (v : value) (d : dict) : dict :=
  match d with
  | [] => [(k, v)]
  | (k', v') :: rest =>
      if String.eqb k' k then (k', v) :: rest
      else (k', v') :: dict_set k v rest
  end.

Definition float_is_zero (f : spec_float) : bool :=
  match f with
  | S754_zero _ => true
  | _ => false
  end.

(** Python truthiness, [bool(v)]. *)
Definition truthy (v : value) : bool :=
  match v with
  | VNone => false
  | VBool b => b
  | VInt n => negb (n =? 0)
  | VFloat f => negb (float_is_zero f)
  | VStr s => negb (String.eqb s "")
  | VList l => match l with [] => false | _ => true end
  | VDict d => match d with [] => false | _ => true end
  end.

Definition is_dict (v : value) : bool :=
  match v with VDict _ => true | _ => false end.

Definition is_list (v : value) : bool :=
  match v with VList _ => true | _ => false end.

(** [needle in v] for a string [needle]: substring test on a string,
    element test on a list, key test on a dict, [TypeError] otherwise. *)
Definition str_in (needle : string) (v : value) : result bool :=
  match v with
  | VStr s => Ok (PyStr.contains needle s)
  | VList l =>
      Ok (existsb (fun x => match x with
                            | VStr s => String.eqb needle s
                            | _ => false
                            end) l)
  | VDict d => Ok (has_key needle d)
  | _ => Raise TypeError
  end.

(** [v[k]] for a string key [k]. *)
Definition index_key (k : string) (v : value) : result value :=
  match v with
  | VDict d =>
      match dict_get k d with
      | Some x => Ok x
      | None => Raise KeyError
      end
  | _ => Raise TypeError
  end.

End Py.

Import Py.

Notation "x <- c1 ;; c2" := (Py.bind c1 (fun x => c2))
  (at level 61, c1 at next level, right associativity).

(* ================================================================= *)
(** ** shlex.split in POSIX mode *)

(** The tokeniser behind [shlex.split(s)]: [posix=True],
    [whitespace_split=True], no comment characters, no punctuation
    characters. It follows [shlex.read_token] state by state. *)
Module Shlex.

Inductive lex_state : Type :=
| InSpace                  (* state ' ' *)
| InWord                   (* state 'a' *)
| InQuote (q : ascii)      (* state is one of the quote characters *)
| InEscape.                (* state is the escape character *)

Definition backslash : ascii := ascii_of_nat 92.
Definition double_quote : ascii := ascii_of_nat 34.
Definition single_quote : ascii := ascii_of_nat 39.

Definition is_whitespace (c : ascii) : bool :=
  Ascii.eqb c " " || Ascii.eqb c (ascii_of_nat 9)
  || Ascii.eqb c (ascii_of_nat 13) || Ascii.eqb c (ascii_of_nat 10).

Definition is_quote (c : ascii) : bool :=
  Ascii.eqb c single_quote || Ascii.eqb c double_quote.

Definition is_escape (c : ascii) : bool := Ascii.eqb c backslash.

Definition in_escapedquotes (c : ascii) : bool := Ascii.eqb c double_quote.

Definition push (token : string) (c : ascii) : string :=
  token ++ String c EmptyString.

(** [if self.token or (self.posix and quoted)]. *)
Definition has_token (token : string) (quoted : bool) : bool :=
  negb (String.eqb token "") || quoted.

Definition state_in_quotes (s : lex_state) : bool :=
  match s with InQuote _ => true | _ => false end.

Definition is_state_char (s : lex_state) (c : ascii) : bool :=
  match s with InQuote q => Ascii.eqb c q | _ => false end.

(** All the tokens of [input], one [read_token] after the other. The
    lexer state survives from one token to the next; [escapedstate],
    [quoted] and [token] are reset at each token. A token that is empty
    and unquoted is the end-of-file marker and ends the iteration. *)
Fixpoint tokens (input : string) (state escapedstate : lex_state)
         (quoted : bool) (token : string) : result (list string) :=
  match input with
  | EmptyString =>
      match state with
      | InSpace | InWord =>
          Ok (if has_token token quoted then [token] else [])
      | InQuote _ => Raise ValueError   (* No closing quotation *)
      | InEscape => Raise ValueError    (* No escaped character *)
      end
  | String c rest =>
      match state with
      | InSpace =>
          if is_whitespace c then
            if has_token token quoted
            then fmap (cons token) (tokens rest InSpace InSpace false "")
            else tokens rest InSpace escapedstate quoted token
          else if is_escape c then tokens rest InEscape InWord quoted token
          else if is_quote c then tokens rest (InQuote c) escapedstate quoted token
          else tokens rest InWord escapedstate quoted (String c EmptyString)
      | InQuote q =>
          if Ascii.eqb c q then tokens rest InWord escapedstate true token
          else if is_escape c && in_escapedquotes q
          then tokens rest InEscape (InQuote q) true token
          else tokens rest (InQuote q) escapedstate true (push token c)
      | InEscape =>
          let token' :=
            if state_in_quotes escapedstate && negb (is_escape c)
               && negb (is_state_char escapedstate c)
            then push token backslash else token in
          tokens rest escapedstate escapedstate quoted (push token' c)
      | InWord =>
          if is_whitespace c then
            if has_token token quoted
            then fmap (cons token) (tokens rest InSpace InSpace false "")
            else tokens rest InSpace escapedstate quoted token
          else if is_quote c then tokens rest (InQuote c) escapedstate quoted token
          else if is_escape c then tokens rest InEscape InWord quoted token
          else tokens rest InWord escapedstate quoted (push token c)
      end
  end.

Definition split (s : string) : result (list string) :=
  tokens s InSpace InSpace false "".

End Shlex.

(* ================================================================= *)
(** ** command_validator.py: the safety classifier *)

Module Validator.

Definition ALLOWED_COMMANDS : list string :=
  [ "pacman"; "apt-get"; "apt"; "yum"; "dnf"; "zypper"; "emerge";
    "ls"; "find"; "which"; "whereis"; "file"; "stat"; "du"; "df";
    "uname"; "whoami"; "id"; "ps"; "top"; "htop"; "free"; "uptime";
    "cat"; "head"; "tail"; "grep"; "wc"; "sort"; "uniq";
    "ping"; "wget"; "curl"; "ssh";
    "python"; "python3"; "pip"; "pip3"; "node"; "npm"; "git";
    "systemctl"; "service"; "sudo" ].

Definition DANGEROUS_COMMANDS : list string :=
  [ "rm"; "rmdir"; "dd"; "mkfs"; "fdisk"; "parted"; "shred";
    "chmod"; "chown"; "su"; "passwd"; "usermod"; "userdel";
    "iptables"; "firewall-cmd"; "ufw" ].

Definition SAFE_SUDO_COMMANDS : list string :=
  [ "pacman"; "apt-get"; "apt"; "yum"; "dnf"; "systemctl"; "service" ].

Definition dangerous_flags : list string :=
  [ "-rf"; "--force"; "--no-preserve-root" ].

(** A verdict is the pair [(is_safe, message)] the Python code returns. *)
Definition verdict : Type := (bool * string)%type.

(** The classifier over arbitrary deny and allow sets: the code of
    [_check_basic_command_safety] and [validate_command_safety] with the
    two module-level sets abstracted. *)
Section Policy.

Variable dangerous allowed : list string.

Definition check_basic_with (command : string) : verdict :=
  if PyStr.mem command dangerous then
    (false, "Command '" ++ command ++ "' is in the dangerous commands list")
  else if negb (PyStr.mem command allowed) then
    (false, "Command '" ++ command ++ "' is not in the allowed commands list")
  else (true, "Command is safe").

(** The loop [for arg in args: if any(flag in arg ...): return False, ...]. *)
Fixpoint scan_dangerous_flags (args : list string) : verdict :=
  match args with
  | [] => (true, "Sudo command is safe")
  | arg :: rest =>
      if PyStr.any_contained dangerous_flags arg
      then (false, "Dangerous flag detected: " ++ arg)
      else scan_dangerous_flags rest
  end.

Definition _validate_sudo_command (args : list string) : verdict :=
  match args with
  | [] => (false, "Sudo command requires arguments")
  | actual_command :: _ =>
      if negb (PyStr.mem actual_command SAFE_SUDO_COMMANDS)
      then (false, "Sudo with '" ++ actual_command ++ "' is not allowed")
      else scan_dangerous_flags args
  end.

Definition validate_with (command : string) (args : list string) : verdict :=
  let '(is_safe, message) := check_basic_with command in
  if negb is_safe then (is_safe, message)
  else if String.eqb command "sudo" then _validate_sudo_command args
  else (true, "Command is safe").

End Policy.

Definition _check_basic_command_safety : string -> verdict :=
  check_basic_with DANGEROUS_COMMANDS ALLOWED_COMMANDS.

Definition validate_command_safety : string -> list string -> verdict :=
  validate_with DANGEROUS_COMMANDS ALLOWED_COMMANDS.

End Validator.

(* ================================================================= *)
(** ** command_validator.py: the plan normaliser *)

Module Normalizer.

Definition banned : list string := [ "&&"; "||"; ";"; "|"; ">"; "<" ].

(** A normalised step before it is put back into a dict. *)
Definition raw_step : Type := (value * list value)%type.

Definition _normalize_string_step (step : string) : result raw_step :=
  parts <- Shlex.split step ;;
  match parts with
  | [] => Ok (VStr "", [])
  | c :: rest => Ok (VStr c, map VStr rest)
  end.

(** [shlex.split(raw_cmd)] where [raw_cmd] is any value for which
    [" " in raw_cmd] held: a list or a dict has no [read] method. *)
Definition shlex_split_value (v : value) : result (list string) :=
  match v with
  | VStr s => Shlex.split s
  | _ => Raise AttributeError
  end.

Definition _normalize_dict_step (step : dict) : result raw_step :=
  let raw_cmd := dict_get_default "command" (VStr "") step in
  let raw_args := dict_get_default "args" (VList []) step in
  raw_args <- match raw_args with
              | VStr s => fmap (map VStr) (Shlex.split s)
              | VList l => Ok l
              | _ => Ok []
              end ;;
  has_space <- (if truthy raw_cmd then str_in " " raw_cmd else Ok false) ;;
  if has_space then
    parts <- shlex_split_value raw_cmd ;;
    match parts with
    | [] => Raise IndexError
    | c :: split_args => Ok (VStr c, (map VStr split_args ++ raw_args)%list)
    end
  else Ok (raw_cmd, raw_args).

(** [any(t in banned for t in tokens)]: hashing a list or a dict raises,
    and [any] stops at the first banned token. *)
Fixpoint any_banned (tokens : list value) : result bool :=
  match tokens with
  | [] => Ok false
  | t :: rest =>
      match t with
      | VList _ | VDict _ => Raise TypeError
      | VStr s => if PyStr.mem s banned then Ok true else any_banned rest
      | _ => any_banned rest
      end
  end.

Definition _is_step_safe (cmd : value) (args : list value) : result bool :=
  fmap negb (any_banned (cmd :: args)).

Definition _process_single_step (step : value) : result (option raw_step) :=
  normalized <- match step with
                | VStr s => fmap Some (_normalize_string_step s)
                | VDict d => fmap Some (_normalize_dict_step d)
                | _ => Ok None
                end ;;
  match normalized with
  | None => Ok None
  | Some (cmd, args) =>
      safe <- _is_step_safe cmd args ;;
      if negb safe then Ok None
      else Ok (if truthy cmd then Some (cmd, args) else None)
  end.

(** The dict [{"command": cmd, "args": args}]. *)
Definition step_dict (cmd : value) (args : list value) : value :=
  VDict [ ("command", cmd); ("args", VList args) ].

(** The loop of [normalize_plan] over the steps, in order. *)
Fixpoint normalize_steps (steps : list value) : result (list value) :=
  match steps with
  | [] => Ok []
  | step :: rest =>
      r <- _process_single_step step ;;
      normalized <- normalize_steps rest ;;
      Ok (match r with
          | Some (cmd, args) => step_dict cmd args :: normalized
          | None => normalized
          end)
  end.

(** [isinstance(plan_data, dict) and isinstance(plan_data.get("plan"), list)],
    giving the dict and its steps. *)
Definition plan_steps_of (plan_data : value) : option (dict * list value) :=
  match plan_data with
  | VDict d =>
      match dict_get "plan" d with
      | Some (VList steps) => Some (d, steps)
      | _ => None
      end
  | _ => None
  end.

Definition normalize_plan (plan_data : value) : result value :=
  match plan_steps_of plan_data with
  | None => Ok plan_data
  | Some (d, steps) =>
      normalized <- normalize_steps steps ;;
      Ok (VDict (dict_set "plan" (VList normalized) d))
  end.

Definition step_command_has_space (step : value) : bool :=
  match step with
  | VDict d =>
      match dict_get "command" d with
      | Some (VStr c) => PyStr.contains " " c
      | _ => false
      end
  | _ => false
  end.

(** No step of the plan has a space in its command. *)
Definition commands_spaceless (plan_data : value) : bool :=
  match plan_steps_of plan_data with
  | Some (_, steps) => forallb (fun st => negb (step_command_has_space st)) steps
  | None => true
  end.

(** What [normalize_steps] puts into its result: a step dict with a
    non-empty string command and no banned token. *)
Definition survivor (step : value) : Prop :=
  exists c args, step = step_dict (VStr c) args /\ c <> ""
                 /\ any_banned (VStr c :: args) = Ok false.

End Normalizer.

(* ================================================================= *)
(** ** The environment: processes, terminal, language-model backend *)

Module World.

(** One entry of the conversation history, [{"role": ..., "content": ...}]. *)
Inductive role : Type := User | Assistant | System.

Record entry : Type := { entry_role : role; content : string }.

Definition history : Type := list entry.

Definition system_entry (text : string) : entry :=
  {| entry_role := System; content := text |}.

Definition assistant_entry (text : string) : entry :=
  {| entry_role := Assistant; content := text |}.

Definition user_entry (text : string) : entry :=
  {| entry_role := User; content := text |}.

(** How [subprocess.run] is called: one shell line, or an argument vector. *)
Inductive process_request : Type :=
| ShellLine (command_line : string)
| Argv (argv : list string).

(** What [subprocess.run] does: it returns a completed process, or raises
    [FileNotFoundError], or raises another exception with text [msg]. *)
Inductive spawn_outcome : Type :=
| Completed (returncode : Z) (stdout stderr : string)
| FileNotFound
| SpawnError (msg : string).

(** Observable effects, in the order they happen. *)
Inductive event : Type :=
| Spawned (req : process_request)        (* subprocess.run was called *)
| AuditInfo (line : string)              (* logger.info *)
| AuditWarning (line : string)           (* logger.warning *)
| Printed (text : string)                (* print *)
| SummaryRequested (old : history).      (* requests.post of a summary prompt *)

(** Everything outside the program, as functions on an opaque world
    state [W]. A failed call is [None]. Terminal input is the line after
    [.strip().lower()]. *)
Record Env (W : Type) : Type := {
  run_process : process_request -> W -> spawn_outcome * W;
  post_summary : history -> W -> option string * W;
  stdin_isatty : W -> bool * W;
  read_input : string -> W -> option string * W;
  stream_and_extract_plan : string -> history -> W -> (string * string) * W;
  extract_json_with_retry : string -> W -> string * W;
  json_loads : string -> option value;
  check_if_task_complete : history -> string -> W -> bool * W;
  stream_ai_response : string -> history -> W -> string * W;
  str_strip : string -> string;
  str_of_value : value -> string
}.

Arguments run_process {W} _ _ _.
Arguments post_summary {W} _ _ _.
Arguments stdin_isatty {W} _ _.
Arguments read_input {W} _ _ _.
Arguments stream_and_extract_plan {W} _ _ _ _.
Arguments extract_json_with_retry {W} _ _ _.
Arguments json_loads {W} _ _.
Arguments check_if_task_complete {W} _ _ _ _.
Arguments stream_ai_response {W} _ _ _ _.
Arguments str_strip {W} _ _.
Arguments str_of_value {W} _ _.

(** The state of one session: the world, the effects so far, and the
    module-level flag [REQUIRE_PLAN_APPROVAL]. *)
Record sys (W : Type) : Type := {
  world : W;
  trace : list event;
  REQUIRE_PLAN_APPROVAL : bool
}.

Arguments world {W} _.
Arguments trace {W} _.
Arguments REQUIRE_PLAN_APPROVAL {W} _.

Definition emit {W} (e : event) (s : sys W) : sys W :=
  {| world := world s;
     trace := trace s ++ [e];
     REQUIRE_PLAN_APPROVAL := REQUIRE_PLAN_APPROVAL s |}.

Definition print {W} (text : string) (s : sys W) : sys W :=
  emit (Printed text) s.

(** Run an environment call on the world of [s]. *)
Definition call {W A} (f : W -> A * W) (s : sys W) : A * sys W :=
  let '(a, w) := f (world s) in
  (a, {| world := w;
         trace := trace s;
         REQUIRE_PLAN_APPROVAL := REQUIRE_PLAN_APPROVAL s |}).

Definition set_approval {W} (b : bool) (s : sys W) : sys W :=
  {| world := world s;
     trace := trace s;
     REQUIRE_PLAN_APPROVAL := b |}.

Definition is_audit (e : event) : bool :=
  match e with
  | AuditInfo _ | AuditWarning _ => true
  | _ => false
  end.

Definition nl : string := String (ascii_of_nat 10) EmptyString.

End World.

Import World.

(* ================================================================= *)
(** ** history_manager.py *)

Module HistoryManager.

Definition MAX_CONTEXT_SIZE : nat := 4000.

Definition role_name (r : role) : string :=
  match r with
  | User => "user"
  | Assistant => "assistant"
  | System => "system"
  end.

(** The number of characters [json.dumps] (with [ensure_ascii]) writes
    for one byte of the UTF-8 encoding of a string: the quote and the
    backslash and the five short escapes take two, other characters
    outside [' '..'~'] take a six-character [\uXXXX], a code point above
    U+FFFF takes two of them, a continuation byte is part of the code
    point its lead byte paid for. *)
Definition json_char_len (c : ascii) : nat :=
  let n := nat_of_ascii c in
  if (n =? 34)%nat || (n =? 92)%nat then 2%nat
  else if (n =? 8)%nat || (n =? 9)%nat || (n =? 10)%nat
          || (n =? 12)%nat || (n =? 13)%nat then 2%nat
  else if (n <? 32)%nat then 6%nat
  else if (n <? 127)%nat then 1%nat
  else if (n =? 127)%nat then 6%nat
  else if (n <? 192)%nat then 0%nat
  else if (n <? 240)%nat then 6%nat
  else 12%nat.

Fixpoint json_chars_len (s : string) : nat :=
  match s with
  | EmptyString => 0%nat
  | String c rest => (json_char_len c + json_chars_len rest)%nat
  end.

(** [len(json.dumps(s))] for a string. *)
Definition json_str_len (s : string) : nat := (2 + json_chars_len s)%nat.

(** [len(json.dumps(e))] for [{"role": r, "content": c}]. *)
Definition json_entry_len (e : entry) : nat :=
  (1 + json_str_len "role" + 2 + json_str_len (role_name (entry_role e))
   + 2 + json_str_len "content" + 2 + json_str_len (content e) + 1)%nat.

Fixpoint json_items_len (h : history) : nat :=
  match h with
  | [] => 0%nat
  | [e] => json_entry_len e
  | e :: rest => (json_entry_len e + 2 + json_items_len rest)%nat
  end.

(** [len(json.dumps(history))]. *)
Definition estimate_context_size (h : history) : nat :=
  (2 + json_items_len h)%nat.

(** [history[-n:]] for [n > 0]. *)
Definition last_n (n : nat) (h : history) : history :=
  skipn (length h - n) h.

(** [history[1:-3]]. *)
Definition middle (h : history) : history :=
  firstn (length h - 3 - 1) (skipn 1 h).

Definition summary_note (summary : string) : entry :=
  system_entry ("Previous session summary: " ++ summary).

(** The body of [compress_history], given what its call of
    [summarize_old_history] does. *)
Definition compress_history_with {W : Type}
           (summarize : history -> sys W -> option (history * sys W))
           (h : history) (s : sys W) : option (history * sys W) :=
  if (estimate_context_size h <=? MAX_CONTEXT_SIZE)%nat then Some (h, s)
  else summarize h s.

Section WithEnv.

Context {W : Type} (env : Env W).

(** [summarize_old_history] and [compress_history] call each other; the
    recursion is cut by [fuel], and [None] stands for a call that does
    not return within it. *)
Fixpoint summarize_old_history (fuel : nat) (h : history) (s : sys W)
  : option (history * sys W) :=
  match fuel with
  | O => None
  | S fuel' =>
      if (length h <=? 5)%nat then Some (h, s)
      else
        let to_summarize := middle h in
        match to_summarize with
        | [] => Some (h, s)
        | _ =>
            let s := emit (SummaryRequested to_summarize) s in
            let '(response, s) := call (post_summary env to_summarize) s in
            match response with
            | Some summary =>
                match h with
                | first :: _ =>
                    Some (first :: summary_note summary :: last_n 3 h, s)
                | [] => Some (h, s)   (* not reached: [h] has six entries or more *)
                end
            | None =>
                compress_history_with (summarize_old_history fuel') h s
            end
        end
  end.

Definition compress_history (fuel : nat) (h : history) (s : sys W)
  : option (history * sys W) :=
  compress_history_with (summarize_old_history fuel) h s.

End WithEnv.

End HistoryManager.

(* ================================================================= *)
(** ** shlex.quote *)

Module ShlexQuote.

(** The characters outside [[^\w@%+=:,./-]] (ASCII): letters, digits,
    underscore and [@%+=:,./-]. *)
Definition is_safe_char (c : ascii) : bool :=
  let n := nat_of_ascii c in
  ((48 <=? n) && (n <=? 57))%nat || ((65 <=? n) && (n <=? 90))%nat
  || ((97 <=? n) && (n <=? 122))%nat
  || existsb (Ascii.eqb c) (list_ascii_of_string "_@%+=:,./-").

Fixpoint all_safe (s : string) : bool :=
  match s with
  | EmptyString => true
  | String c rest => is_safe_char c && all_safe rest
  end.

Definition sq : string := String Shlex.single_quote EmptyString.

(** [s.replace("'", "'\"'\"'")]. *)
Fixpoint escape_single_quotes (s : string) : string :=
  match s with
  | EmptyString => EmptyString
  | String c rest =>
      if Ascii.eqb c Shlex.single_quote
      then sq ++ PyStr.dq ++ sq ++ PyStr.dq ++ sq ++ escape_single_quotes rest
      else String c (escape_single_quotes rest)
  end.

Definition quote (s : string) : string :=
  if String.eqb s "" then sq ++ sq
  else if all_safe s then s
  else sq ++ escape_single_quotes s ++ sq.

End ShlexQuote.

(* ================================================================= *)
(** ** command_executor.py *)

Module Executor.

Import Validator.

Definition shell_operators : list string := [ "|"; ">"; "<"; "&&"; "||" ].

(** [f"{command} {' '.join(args)}"]. *)
Definition cmd_str (command : string) (args : list string) : string :=
  command ++ " " ++ PyStr.join " " args.

Definition needs_shell (command : string) (args : list string) : bool :=
  existsb (fun op => PyStr.contains op (PyStr.join " " (command :: args)))
          shell_operators.

(** The request [_run_command_subprocess] hands to [subprocess.run]. *)
Definition spawn_request (command : string) (args : list string)
  : process_request :=
  if needs_shell command args
  then ShellLine (command ++ " " ++ PyStr.join " " (map ShlexQuote.quote args))
  else Argv (command :: args).

Section WithEnv.

Context {W : Type} (env : Env W).

Definition log_command_execution(command : string) (args : list string)
           (return_code : Z) (result : string) (s : sys W) : sys W :=
  let s := emit (AuditInfo ("EXECUTED: " ++ cmd_str command args
                            ++ " | EXIT_CODE: " ++ PyStr.of_Z return_code)) s in
  if negb (return_code =? 0)
  then emit (AuditWarning ("COMMAND_FAILED: " ++ cmd_str command args
                           ++ " | ERROR: " ++ result)) s
  else s.

Definition _format_command_output (stdout stderr : string) : string :=
  let output := "" in
  let output :=
    if negb (String.eqb stdout "")
    then output ++ "--- Output ---" ++ nl ++ str_strip env stdout ++ nl
    else output in
  let output :=
    if negb (String.eqb stderr "")
    then output ++ "--- Errors ---" ++ nl ++ str_strip env stderr ++ nl
    else output in
  if negb (String.eqb output "") then output
  else "Command executed successfully with no output." ++ nl.

Definition spawn (req : process_request) (s : sys W) : spawn_outcome * sys W :=
  call (run_process env req) (emit (Spawned req) s).

Definition _run_command_subprocess (command : string) (args : list string)
           (s : sys W) : spawn_outcome * sys W :=
  let command_line :=
    command ++ " " ++ PyStr.join " " (map ShlexQuote.quote args) in
  let s := print ("🤖 Executing: " ++ command_line) s in
  if needs_shell command args then
    let s := print "⚠️  Using shell mode for complex command" s in
    spawn (ShellLine command_line) s
  else spawn (Argv (command :: args)) s.

Definition execute_command (command : string) (args : list string)
           (s : sys W) : (Z * string) * sys W :=
  let '(is_safe, safety_msg) := validate_command_safety command args in
  if negb is_safe then
    ((1, "🚫 Command blocked for safety: " ++ safety_msg ++ nl), s)
  else
    let '(outcome, s) := _run_command_subprocess command args s in
    match outcome with
    | Completed returncode stdout stderr =>
        let final_output := _format_command_output stdout stderr in
        let s := log_command_execution command args returncode final_output s in
        ((returncode, final_output), s)
    | FileNotFound =>
        ((1, "Error: Command not found: " ++ command ++ nl), s)
    | SpawnError e =>
        ((1, "An unexpected error occurred: " ++ e ++ nl), s)
    end.

End WithEnv.

End Executor.

(* ================================================================= *)
(** ** user_interaction.py and main_agent.py *)

Module Agent.

Import Validator Normalizer Executor HistoryManager.

(** A step of a normalised plan whose arguments are all strings. *)
Record Step : Type := { command : string; args : list string }.

Fixpoint strings_of (vs : list value) : option (list string) :=
  match vs with
  | [] => Some []
  | VStr s :: rest => option_map (cons s) (strings_of rest)
  | _ => None
  end.

(** [step.get("command")] and [step.get("args", [])] of a step dict. An
    absent or empty command is the empty string. *)
Definition typed_step (step : value) : option Step :=
  match step with
  | VDict d =>
      match dict_get_default "command" (VStr "") d,
            dict_get_default "args" (VList []) d with
      | VStr c, VList vs =>
          option_map (fun a => {| command := c; args := a |}) (strings_of vs)
      | _, _ => None
      end
  | _ => None
  end.

Fixpoint typed_steps (steps : list value) : option (list Step) :=
  match steps with
  | [] => Some []
  | step :: rest =>
      match typed_step step, typed_steps rest with
      | Some st, Some sts => Some (st :: sts)
      | _, _ => None
      end
  end.

(** How a call of the control loop ends: it returns; it raises an
    exception nobody catches; it meets a plan with a non-string argument,
    which this model does not follow further; or it is still inside the
    retry of the summary request when the fuel runs out. *)
Inductive run (W A : Type) : Type :=
| Returned (a : A) (s : sys W)
| Crashed (e : exn) (s : sys W)
| OutsideModel (s : sys W)
| NoReturn.

Arguments Returned {W A} a s.
Arguments Crashed {W A} e s.
Arguments OutsideModel {W A} s.
Arguments NoReturn {W A}.

Inductive approval : Type := Approved | Skip | Rejected.

(** [history.append(e)]. *)
Definition append (h : history) (e : entry) : history := (h ++ [e])%list.

(** The text an f-string puts for a value: a string stands for itself. *)
Definition format_value {W} (env : Env W) (v : value) : string :=
  match v with
  | VStr s => s
  | _ => str_of_value env v
  end.

Definition _is_command_successful (last_command : string) : bool :=
  if PyStr.contains "Exit code: 0" last_command then true
  else if PyStr.contains "which" last_command
          && PyStr.contains "Exit code: 1" last_command then true
  else false.

Definition executed_entry (command : string) (args : list string)
           (return_code : Z) (result : string) : entry :=
  system_entry ("Executed '" ++ cmd_str command args ++ "'. Exit code: "
                ++ PyStr.of_Z return_code ++ ". Result:" ++ nl ++ result).

(** The entries a run appends before it stops or ends: skipped steps and
    executions that exited with status 0. *)
Definition benign (e : entry) : Prop :=
  e = system_entry "Skipped invalid step in plan."
  \/ exists c a result, e = executed_entry c a 0 result.

Definition safety_indicator (is_safe : bool) : string :=
  if is_safe then "✅" else "⚠️".

Definition step_line (i : nat) (st : Step) : string :=
  "  " ++ PyStr.of_Z (Z.of_nat i + 1) ++ ". "
  ++ safety_indicator (fst (validate_command_safety (command st) (args st)))
  ++ " " ++ command st ++ " "
  ++ PyStr.join " " (map ShlexQuote.quote (args st)).

Section WithEnv.

Context {W : Type} (env : Env W).

(* ---------------- user_interaction.py ---------------- *)

Definition _display_plan_step (i : nat) (st : Step) (s : sys W) : sys W :=
  let '(is_safe, safety_msg) :=
    validate_command_safety (command st) (args st) in
  let s := print (step_line i st) s in
  if negb is_safe then print ("      └─ " ++ safety_msg) s else s.

Fixpoint display_plan_steps (i : nat) (steps : list Step) (s : sys W) : sys W :=
  match steps with
  | [] => s
  | st :: rest => display_plan_steps (S i) rest (_display_plan_step i st s)
  end.

Definition _get_user_approval (s : sys W) : approval * sys W :=
  let '(line, s) :=
    call (read_input env (nl ++ "🤔 Approve this plan? [y/N/s(kip)]: ")) s in
  match line with
  | Some user_input =>
      if PyStr.mem user_input ["y"; "yes"] then (Approved, s)
      else if PyStr.mem user_input ["s"; "skip"] then (Skip, s)
      else (Rejected, s)
  | None => (Rejected, s)
  end.

Definition approve_plan (steps : list Step) (require_approval : bool)
           (s : sys W) : approval * sys W :=
  if negb require_approval then (Approved, s)
  else
    let '(tty, s) := call (stdin_isatty env) s in
    if negb tty then (Approved, s)
    else
      let s := print (nl ++ "🔍 Plan Review:") s in
      let s := display_plan_steps 0 steps s in
      _get_user_approval s.

Definition confirm_sudo_execution (s : sys W) : bool * sys W :=
  let '(tty, s) := call (stdin_isatty env) s in
  if negb tty then (true, s)
  else
    let s := print "🔑 Sudo command detected - may require password." s in
    let '(line, s) :=
      call (read_input env "🔒 Confirm sudo execution? [y/N]: ") s in
    match line with
    | Some confirm => (PyStr.mem confirm ["y"; "yes"], s)
    | None => (false, print (nl ++ "❌ Sudo command cancelled.") s)
    end.

Definition CONTINUE_PROMPT : string :=
  nl ++ nl ++ "[Press Enter to continue, 'q' to quit, 'r' to restart context, 'a' to approve plans]: ".

Definition get_user_continuation_choice (s : sys W) : string * sys W :=
  let '(line, s) := call (read_input env CONTINUE_PROMPT) s in
  match line with
  | Some user_input => (user_input, s)
  | None => ("continue", s)
  end.

(* ---------------- main_agent.py ---------------- *)

(** The loop of [execute_plan_steps]; the result is
    [all_steps_succeeded] with the history after the appends. *)
Fixpoint execute_plan_steps (steps : list Step) (h : history) (s : sys W)
  : (bool * history) * sys W :=
  match steps with
  | [] => ((true, h), s)
  | step :: rest =>
      if String.eqb (command step) "" then
        execute_plan_steps rest
          (append h (system_entry "Skipped invalid step in plan.")) s
      else
        let '(declined, s) :=
          if String.eqb (command step) "sudo"
          then let '(ok, s) := confirm_sudo_execution s in (negb ok, s)
          else (false, s) in
        if declined then
          ((false,
            append h (system_entry ("Cancelled '" ++ cmd_str (command step) (args step)
                                    ++ "'. User declined sudo."))), s)
        else
          let '((return_code, result), s) :=
            execute_command env (command step) (args step) s in
          let h := append h (executed_entry (command step) (args step)
                                            return_code result) in
          let s := print result s in
          if negb (return_code =? 0) then
            ((false, h), print "⚠️  Command failed, will re-plan..." s)
          else execute_plan_steps rest h s
  end.

Fixpoint print_plan_lines (i : nat) (steps : list Step) (s : sys W) : sys W :=
  match steps with
  | [] => s
  | st :: rest => print_plan_lines (S i) rest (print (step_line i st) s)
  end.

Definition handle_plan_execution (plan_data : value) (h : history)
           (require_approval : bool) (s : sys W)
  : run W (bool * history) :=
  match str_in "error" plan_data with
  | Raise e => Crashed e s
  | Ok true =>
      match index_key "error" plan_data with
      | Raise e => Crashed e s
      | Ok err =>
          let s := print ("❌ Error from AI service: " ++ format_value env err) s in
          Returned (false, append h (system_entry ("AI service error: "
                                                   ++ format_value env err))) s
      end
  | Ok false =>
      match (has_plan <- str_in "plan" plan_data ;;
             if has_plan then index_key "plan" plan_data
             else Ok VNone) with
      | Raise e => Crashed e s
      | Ok (VList steps) =>
          match typed_steps steps with
          | None => OutsideModel s
          | Some steps =>
              let s := print "📋 Execution Plan:" s in
              let s := print_plan_lines 0 steps s in
              let s := print "" s in
              let '(approved, s) := approve_plan steps require_approval s in
              match approved with
              | Rejected =>
                  let s := print "❌ Plan rejected by user. Re-planning..." s in
                  Returned (false, append h (system_entry "User rejected the execution plan. Please create a different approach.")) s
              | Skip =>
                  Returned (true, h) (print "⏭️  Plan skipped by user." s)
              | Approved =>
                  let '(r, s) := execute_plan_steps steps h s in
                  Returned r s
              end
          end
      | Ok _ =>
          let h := append h (system_entry ("AI returned an invalid plan: "
                                           ++ format_value env plan_data)) in
          Returned (false, h) (print "⚠️  Invalid plan received, retrying..." s)
      end
  end.

(** The result of [_handle_user_choice] and [handle_iteration_control]:
    [(should_continue, history, iteration)]. *)
Definition control : Type := (bool * history * Z)%type.

Definition _handle_user_choice (fuel : nat) (user_input : string)
           (h : history) (iteration : Z) (s : sys W) : run W control :=
  if String.eqb user_input "q" then
    Returned (false, h, 0) (print "🛑 Stopping execution." s)
  else if String.eqb user_input "r" then
    let s := print "🔄 Restarting with compressed context..." s in
    match summarize_old_history env fuel h s with
    | Some (h, s) => Returned (true, h, 0) s
    | None => NoReturn
    end
  else if String.eqb user_input "a" then
    let s := set_approval (negb (REQUIRE_PLAN_APPROVAL s)) s in
    let status := if REQUIRE_PLAN_APPROVAL s then "enabled" else "disabled" in
    Returned (true, h, iteration) (print ("🔒 Plan approval " ++ status) s)
  else Returned (true, h, iteration) s.

Definition handle_iteration_control (fuel : nat) (iteration : Z)
           (h : history) (s : sys W) : run W control :=
  let '(interactive, s) :=
    if 3 <=? iteration then call (stdin_isatty env) s else (false, s) in
  if interactive then
    let '(user_input, s) := get_user_continuation_choice s in
    _handle_user_choice fuel user_input h iteration s
  else if 5 <=? iteration then
    let s := print "🔄 Auto-compressing context to continue..." s in
    match summarize_old_history env fuel h s with
    | Some (h, s) => Returned (true, h, 0) s
    | None => NoReturn
    end
  else Returned (true, h, iteration) s.

Definition generate_task_summary (user_prompt : string) (h : history)
           (s : sys W) : history * sys W :=
  let s := print "📝 Summary: " s in
  let '(summary, s) := call (stream_ai_response env user_prompt h) s in
  (append h (assistant_entry ("Summary: " ++ summary)), print nl s).

(** [history[-1].get("content", "") if history else ""]. *)
Definition last_content (h : history) : string :=
  match rev h with
  | [] => ""
  | e :: _ => content e
  end.

Definition _check_task_completion (h : history) (user_prompt : string)
           (s : sys W) : (bool * history) * sys W :=
  let last_command := last_content h in
  if _is_command_successful last_command then
    let '(complete, s) := call (check_if_task_complete env h user_prompt) s in
    if complete then
      let s := print (nl ++ "✅ Task complete! Generating summary...") s in
      let '(h, s) := generate_task_summary user_prompt h s in
      ((true, h), s)
    else
      ((false, h),
       print (nl ++ "🔄 Commands succeeded but task may not be complete. Continuing...") s)
  else ((false, h), s).

Definition error_marker : string := PyStr.dq ++ "error" ++ PyStr.dq.

(** The result is [(plan_json_str, full_ai_response, history)]. *)
Definition _handle_planning_phase (fuel : nat) (user_prompt : string)
           (h : history) (s : sys W)
  : run W (string * string * history) :=
  match
    (if (MAX_CONTEXT_SIZE <? estimate_context_size h)%nat then
       summarize_old_history env fuel h
         (print (nl ++ "💾 Context getting large, compressing history...") s)
     else Some (h, s))
  with
  | None => NoReturn
  | Some (h, s) =>
      let '((plan_json_str, full_ai_response), s) :=
        call (stream_and_extract_plan env user_prompt h) s in
      let '(plan_json_str, s) :=
        if PyStr.contains error_marker plan_json_str
        then call (extract_json_with_retry env full_ai_response) s
        else (plan_json_str, s) in
      Returned (plan_json_str, full_ai_response,
                append h (assistant_entry full_ai_response)) s
  end.

Definition _handle_execution_phase (plan_json_str : string) (h : history)
           (require_approval : bool) (s : sys W) : run W (bool * history) :=
  match json_loads env plan_json_str with
  | None =>
      let h := append h (system_entry ("AI returned invalid JSON: "
                                       ++ plan_json_str)) in
      Returned (false, h) (print "⚠️  Invalid JSON received, retrying..." s)
  | Some plan_data =>
      match normalize_plan plan_data with
      | Raise e => Crashed e s
      | Ok plan_data => handle_plan_execution plan_data h require_approval s
      end
  end.

(** One pass of the [while True] loop of [main]. *)
Inductive next : Type :=
| Continue (iteration : Z) (h : history)   (* back to the top of the loop *)
| Stop (h : history).                      (* [return] or [break] *)

Definition max_iterations_message (iteration : Z) : string :=
  nl ++ "🛑 Reached maximum iterations (" ++ PyStr.of_Z iteration
  ++ "). Stopping.".

Definition main_pass (fuel : nat) (user_prompt : string) (iteration : Z)
           (h : history) (s : sys W) : run W next :=
  let iteration := iteration + 1 in
  match _handle_planning_phase fuel user_prompt h s with
  | Returned (plan_json_str, _, h) s =>
      match _handle_execution_phase plan_json_str h
                                    (REQUIRE_PLAN_APPROVAL s) s with
      | Returned (execution_success, h) s =>
          if negb execution_success then Returned (Continue iteration h) s
          else
            let '((complete, h), s) :=
              _check_task_completion h user_prompt s in
            if complete then Returned (Stop h) s
            else
              match handle_iteration_control fuel iteration h s with
              | Returned (should_continue, h, iteration) s =>
                  if negb should_continue then Returned (Stop h) s
                  else if 10 <? iteration then
                    Returned (Stop h)
                             (print (max_iterations_message iteration) s)
                  else Returned (Continue iteration h) s
              | Crashed e s => Crashed e s
              | OutsideModel s => OutsideModel s
              | NoReturn => NoReturn
              end
      | Crashed e s => Crashed e s
      | OutsideModel s => OutsideModel s
      | NoReturn => NoReturn
      end
  | Crashed e s => Crashed e s
  | OutsideModel s => OutsideModel s
  | NoReturn => NoReturn
  end.

(** [passes] passes of the loop; [Continue] in the result means the
    loop is about to start a further pass. *)
Fixpoint main_loop (passes fuel : nat) (user_prompt : string)
         (iteration : Z) (h : history) (s : sys W) : run W next :=
  match passes with
  | O => Returned (Continue iteration h) s
  | S passes' =>
      match main_pass fuel user_prompt iteration h s with
      | Returned (Continue iteration h) s =>
          main_loop passes' fuel user_prompt iteration h s
      | other => other
      end
  end.

(** The session as [_setup_session] starts it, after the command line
    has been parsed. *)
Definition start_session (user_prompt model : string)
           (require_approval : bool) (w : W) : history * sys W :=
  let s := {| world := w; trace := []; REQUIRE_PLAN_APPROVAL := false |} in
  let s := emit (AuditInfo "=== NYX AGENT SESSION STARTED ===") s in
  let s := emit (AuditInfo ("User prompt: " ++ user_prompt)) s in
  let s := emit (AuditInfo ("Using model: " ++ model)) s in
  let s := if require_approval
           then emit (AuditInfo "Plan approval mode enabled") s else s in
  let s := print "🔐 Security: Command validation enabled" s in
  let s := print "📝 Logging: /tmp/nyx_agent.log" s in
  let s := print ("🤖 Model: " ++ model) s in
  let s := if require_approval
           then print "🔒 Plan approval: Required" s else s in
  let s := print "" s in
  ([user_entry user_prompt], set_approval require_approval s).

(** [main], run for at most [passes] passes of its loop. *)
Definition main (passes fuel : nat) (user_prompt model : string)
           (require_approval : bool) (w : W) : run W next :=
  let '(h, s) := start_session user_prompt model require_approval w in
  main_loop passes fuel user_prompt 0 h s.

End WithEnv.

End Agent.

(* ================================================================= *)
(** ** Concrete plans and environments used as examples *)

Module Scenarios.

Import Normalizer HistoryManager Agent.

Definition quoted_plan : value :=
  VDict [("plan", VList [VStr "'a b' c"])].

Definition quoted_plan_once : value :=
  VDict [("plan", VList [step_dict (VStr "a b") [VStr "c"]])].

Definition quoted_plan_twice : value :=
  VDict [("plan", VList [step_dict (VStr "a") [VStr "b"; VStr "c"]])].

(** The text [extract_json_object] returns when it finds no JSON object. *)
Definition failed_extraction_json : string :=
  "{" ++ PyStr.dq ++ "error" ++ PyStr.dq ++ ": " ++ PyStr.dq
  ++ "Failed to extract JSON from AI response." ++ PyStr.dq ++ "}".

(** The text [stream_and_extract_plan] returns when the backend cannot
    be reached. *)
Definition connection_error_json : string :=
  "{" ++ PyStr.dq ++ "error" ++ PyStr.dq ++ ": " ++ PyStr.dq
  ++ "Error connecting to Ollama: connection refused" ++ PyStr.dq ++ "}".

(** [json.loads] on the plan texts of the scenarios below: the
    extraction-failure object decodes to a dict, the other texts that
    occur are not JSON. *)
Definition loads (text : string) : option value :=
  if String.eqb text failed_extraction_json
  then Some (VDict [("error", VStr "Failed to extract JSON from AI response.")])
  else None.

(** The backend is down: every request fails, there is no terminal, and
    no executable is found. *)
Definition offline : Env unit := {|
  run_process := fun _ w => (FileNotFound, w);
  post_summary := fun _ w => (None, w);
  stdin_isatty := fun w => (false, w);
  read_input := fun _ w => (None, w);
  stream_and_extract_plan := fun _ _ w => ((connection_error_json, ""), w);
  extract_json_with_retry := fun _ w => (failed_extraction_json, w);
  json_loads := loads;
  check_if_task_complete := fun _ _ w => (false, w);
  stream_ai_response := fun _ _ w => ("", w);
  str_strip := fun s => s;
  str_of_value := fun _ => ""
|}.

(** The backend answers, but its plans are never JSON; summaries work.
    Every process exits with status 2 and a line on stderr. *)
Definition babbling : Env unit := {|
  run_process := fun _ w => (Completed 2 "" "no such file", w);
  post_summary := fun _ w => (Some "two plans could not be parsed", w);
  stdin_isatty := fun w => (false, w);
  read_input := fun _ w => (None, w);
  stream_and_extract_plan := fun _ _ w => (("{oops}", "{oops}"), w);
  extract_json_with_retry := fun _ w => (failed_extraction_json, w);
  json_loads := loads;
  check_if_task_complete := fun _ _ w => (false, w);
  stream_ai_response := fun _ _ w => ("", w);
  str_strip := fun s => s;
  str_of_value := fun _ => ""
|}.

(** No [which]: the lookup exits with status 1 and prints nothing. *)
Definition missing_tool : Env unit := {|
  run_process := fun _ w => (Completed 1 "" "", w);
  post_summary := fun _ w => (None, w);
  stdin_isatty := fun w => (false, w);
  read_input := fun _ w => (None, w);
  stream_and_extract_plan := fun _ _ w => (("{oops}", "{oops}"), w);
  extract_json_with_retry := fun _ w => (failed_extraction_json, w);
  json_loads := loads;
  check_if_task_complete := fun _ _ w => (false, w);
  stream_ai_response := fun _ _ w => ("", w);
  str_strip := fun s => s;
  str_of_value := fun _ => ""
|}.

Definition fresh : sys unit :=
  {| world := tt; trace := []; REQUIRE_PLAN_APPROVAL := false |}.

(** [n] copies of the letter a. *)
Fixpoint letters (n : nat) : string :=
  match n with
  | O => EmptyString
  | S n' => String "a" (letters n')
  end.

Definition long_prompt : string := letters 4000.

Definition six_entries : history :=
  [ user_entry "install vim";
    assistant_entry "plan 1";
    system_entry "result 1";
    assistant_entry "plan 2";
    system_entry "result 2";
    assistant_entry "plan 3" ].

Definition mentions_max_iterations (e : event) : bool :=
  match e with
  | Printed text => PyStr.contains "Reached maximum iterations" text
  | _ => false
  end.

Definition is_summary_request (e : event) : bool :=
  match e with
  | SummaryRequested _ => true
  | _ => false
  end.

(** The summary requests among the effects. *)
Definition summary_requests (events : list event) : list event :=
  filter is_summary_request events.

(** The state a call of the control loop ended in ([fresh] when it did not
    return). *)
Definition final_state {A : Type} (r : run unit A) : sys unit :=
  match r with
  | Returned _ s | Crashed _ s | OutsideModel s => s
  | NoReturn => fresh
  end.

(** The history a pass of the loop handed on. *)
Definition final_history (r : run unit next) : history :=
  match r with
  | Returned (Continue _ h) _ | Returned (Stop h) _ => h
  | _ => []
  end.

Definition default_model : string := "smollm2:1.7b".

(** Twenty passes of [main] with the backend down. *)
Definition offline_session : run unit next :=
  main offline 20 1 "install python" default_model false tt.

(** Four passes of [main] on a 4000-character request, with plans that
    are never JSON. *)
Definition babbling_session : run unit next :=
  main babbling 4 1 long_prompt default_model false tt.

End Scenarios.

(* ================================================================= *)
(** ** main_agent.py: the command line *)

Module Cli.

(** A function that may leave through [sys.exit]: it returns a value, or
    the process exits with a status after printing some lines. *)
Inductive cli (A : Type) : Type :=
| Parsed (a : A)
| Exit (status : Z) (printed : list string).

Arguments Parsed {A} a.
Arguments Exit {A} status printed.

Definition LOG_FILE : string := "/tmp/nyx_agent.log".

Definition usage : list string :=
  [ "Usage: main_agent.py [--approve] [--model MODEL] <prompt>";
    "  --approve: Require manual approval for each plan";
    "  --model MODEL: Specify AI model (default: smollm2:1.7b)";
    "  Logs are written to: " ++ LOG_FILE ].

Definition _show_usage_and_exit {A : Type} : cli A := Exit 1 usage.

(** The [while] loop of [_process_flags], from the values [model] and
    [require_approval] have when the loop is at [args]. *)
Fixpoint process_flags_loop (model : string) (require_approval : bool)
         (args : list string) : cli (string * bool * list string) :=
  match args with
  | [] => Parsed (model, require_approval, args)
  | flag :: rest =>
      if String.prefix "--" flag then
        if String.eqb flag "--approve" then process_flags_loop model true rest
        else
          match String.eqb flag "--model", rest with
          | true, name :: rest' =>
              process_flags_loop name require_approval rest'
          | _, _ => Exit 1 ["Unknown flag: " ++ flag]
          end
      else Parsed (model, require_approval, args)
  end.

Definition _process_flags (args : list string)
  : cli (string * bool * list string) :=
  process_flags_loop "smollm2:1.7b" false args.

(** [parse_command_line_args], with [sys.argv] as its argument; the
    result is [(user_prompt, model, require_approval)]. *)
Definition parse_command_line_args (argv : list string)
  : cli (string * string * bool) :=
  if (length argv <? 2)%nat then _show_usage_and_exit
  else
    match _process_flags (tl argv) with
    | Exit status printed => Exit status printed
    | Parsed (model, require_approval, remaining_args) =>
        match remaining_args with
        | [] => Exit 1 ["Error: No prompt provided"]
        | _ => Parsed (PyStr.join " " remaining_args, model, require_approval)
        end
    end.

(** A leading part of the command line made of flags only. *)
Fixpoint only_flags (args : list string) : bool :=
  match args with
  | [] => true
  | flag :: rest =>
      if String.eqb flag "--approve" then only_flags rest
      else if String.eqb flag "--model" then
        match rest with
        | [] => false
        | _ :: rest' => only_flags rest'
        end
      else false
  end.

End Cli.

(* ================================================================= *)
(** ** ai_client.py: the balanced-brace scan of [extract_json_object] *)

(** Positions count the bytes of the UTF-8 text where Python counts code
    points; the scan reacts to ASCII characters only, so the piece of text
    between two positions it picks is the same. *)
Module Extraction.

Definition quote_char : ascii := ascii_of_nat 34.
Definition backslash_char : ascii := ascii_of_nat 92.
Definition open_brace : ascii := "{"%char.
Definition close_brace : ascii := "}"%char.

Definition _should_skip_char (ch : ascii) (esc in_str : bool) : bool * bool :=
  if esc then (true, false)
  else if Ascii.eqb ch backslash_char then (true, true)
  else if Ascii.eqb ch quote_char then (true, negb in_str)
  else if in_str then (true, in_str)
  else (false, in_str).

Definition _handle_opening_brace (i depth : Z) : Z * Z :=
  ((if depth =? 0 then i else -1), depth + 1).

(** [text[start:stop]] for [0 <= start]. *)
Definition slice (text : string) (start stop : Z) : string :=
  substring (Z.to_nat start) (Z.to_nat (stop - start)) text.

Definition _handle_closing_brace (text : string) (i depth start : Z)
  : option string * Z :=
  let new_depth := depth - 1 in
  if (new_depth =? 0) && negb (start =? -1)
  then (Some (slice text start (i + 1)), new_depth)
  else (None, new_depth).

Definition _update_string_state (ch : ascii) (esc in_str : bool) : bool * bool :=
  if Ascii.eqb ch quote_char && negb esc then (false, negb in_str)
  else if Ascii.eqb ch backslash_char then (negb esc, in_str)
  else (false, in_str).

Record BraceState : Type := { depth : Z; start : Z }.

Definition _process_brace_character (ch : ascii) (i : Z) (state : BraceState)
           (text : string) : option string * BraceState :=
  if Ascii.eqb ch open_brace then
    let '(new_start, new_depth) := _handle_opening_brace i (depth state) in
    (None, {| depth := new_depth; start := new_start |})
  else if Ascii.eqb ch close_brace then
    let '(result, new_depth) :=
      _handle_closing_brace text i (depth state) (start state) in
    (result, {| depth := new_depth; start := start state |})
  else (None, state).

(** The [for i, ch in enumerate(text)] loop, from position [i] on, where
    [rest] is what is left of [text]. *)
Fixpoint scan (rest : string) (i : Z) (esc in_str : bool) (state : BraceState)
         (text : string) : option string :=
  match rest with
  | EmptyString => None
  | String ch rest' =>
      let '(esc, in_str) := _update_string_state ch esc in_str in
      let '(should_skip, _) := _should_skip_char ch esc in_str in
      if should_skip then scan rest' (i + 1) esc in_str state text
      else
        let '(result, state) := _process_brace_character ch i state text in
        match result with
        | Some r =>
            if negb (String.eqb r "") then Some r
            else scan rest' (i + 1) esc in_str state text
        | None => scan rest' (i + 1) esc in_str state text
        end
  end.

Definition _extract_with_balanced_braces (text : string) : option string :=
  scan text 0 false false {| depth := 0; start := -1 |} text.

(** The string state ([esc], [in_str]) after the loop has gone over [s]. *)
Fixpoint string_state_after (s : string) (esc in_str : bool) : bool * bool :=
  match s with
  | EmptyString => (esc, in_str)
  | String ch rest =>
      let '(esc, in_str) := _update_string_state ch esc in_str in
      string_state_after rest esc in_str
  end.

(** No brace of [s] is looked at by the loop: each one is inside a string
    literal. *)
Fixpoint braces_only_in_strings (s : string) (esc in_str : bool) : bool :=
  match s with
  | EmptyString => true
  | String ch rest =>
      let '(esc, in_str) := _update_string_state ch esc in_str in
      (fst (_should_skip_char ch esc in_str)
       || negb (Ascii.eqb ch open_brace || Ascii.eqb ch close_brace))
      && braces_only_in_strings rest esc in_str
  end.

(** A piece of text without a brace outside its string literals, and
    whose string literals are all closed at its end. *)
Definition plain_piece (s : string) : Prop :=
  braces_only_in_strings s false false = true
  /\ snd (string_state_after s false false) = false.

End Extraction.

(* ================================================================= *)
(** ** Predicates used to state what the code guarantees *)

Module Observations.

Import Validator Normalizer Executor.

(** A token of a normalised step: not a list or a dict, and, when it is a
    string, not one of the banned shell operators. *)
Definition clean_token (t : value) : Prop :=
  match t with
  | VList _ | VDict _ => False
  | VStr s => PyStr.mem s banned = false
  | _ => True
  end.

(** A spawn event is approved when it is the request built for a command
    and arguments that the classifier allows. *)
Definition approved_spawn (e : event) : Prop :=
  match e with
  | Spawned req =>
      exists command args,
        req = spawn_request command args
        /\ fst (validate_command_safety command args) = true
  | _ => True
  end.

(** [s'] comes after [s]: its trace is the one of [s] followed by events
    whose spawns are all approved. *)
Definition extends_safely {W : Type} (s s' : sys W) : Prop :=
  exists added,
    trace s' = (trace s ++ added)%list /\ Forall approved_spawn added.

(** The audit lines among the effects. *)
Definition audit_lines (events : list event) : list event :=
  filter is_audit events.

Definition is_spawn (e : event) : bool :=
  match e with
  | Spawned _ => true
  | _ => false
  end.

(** The process spawns among the effects. *)
Definition spawns (events : list event) : list event :=
  filter is_spawn events.

(** What the loop of [execute_plan_steps] does with a step before it
    runs it: [command == "sudo" and not confirm_sudo_execution()], with
    the state after the question. *)
Definition sudo_gate {W : Type} (env : Env W) (step : Agent.Step) (s : sys W)
  : bool * sys W :=
  if String.eqb (Agent.command step) "sudo"
  then let '(ok, s') := Agent.confirm_sudo_execution env s in (negb ok, s')
  else (false, s).

(** The call ends, by a return or an exception, in a state that comes
    after [s]. *)
Definition ends_safely {W A : Type} (s : sys W) (r : Agent.run W A) : Prop :=
  match r with
  | Agent.Returned _ s' | Agent.Crashed _ s' | Agent.OutsideModel s' =>
      extends_safely s s'
  | Agent.NoReturn => False
  end.




End Observations.

(* ================================================================= *)
(** * Properties *)

Import Validator Normalizer Executor HistoryManager Agent Scenarios.
Import Observations.

(* ----------------------------------------------------------------- *)
(** ** The safety classifier *)

Lemma check_basic_dangerous (dangerous allowed : list string) (command : string) :
  PyStr.mem command dangerous = true ->
  check_basic_with dangerous allowed command
  = (false, "Command '" ++ command ++ "' is in the dangerous commands list").
Proof.
  intros Hin. unfold check_basic_with. now rewrite Hin.
Qed.

(** C1: a command of the deny-set is denied whatever its arguments, and
    the deny-set is looked at first: the verdict is the same for every
    allow-set, also one that holds the command. *)
Theorem deny_set_always_denied :
  forall (allowed : list string) (command : string) (args : list string),
    PyStr.mem command DANGEROUS_COMMANDS = true ->
    validate_with DANGEROUS_COMMANDS allowed command args
    = (false, "Command '" ++ command ++ "' is in the dangerous commands list")
    /\ validate_command_safety command args
       = (false, "Command '" ++ command ++ "' is in the dangerous commands list").
Proof.
  intros allowed command args Hin.
  unfold validate_command_safety, validate_with.
  rewrite !(check_basic_dangerous _ _ _ Hin). cbn. split; reflexivity.
Qed.

Lemma deny_set_always_denied_witness :
  PyStr.mem "rm" DANGEROUS_COMMANDS = true
  /\ PyStr.mem "rm" ("rm" :: ALLOWED_COMMANDS) = true
  /\ validate_with DANGEROUS_COMMANDS ("rm" :: ALLOWED_COMMANDS) "rm" ["-rf"; "/"]
     = (false, "Command 'rm' is in the dangerous commands list").
Proof.
  split; [reflexivity | split; [reflexivity |]].
  exact (proj1 (deny_set_always_denied ("rm" :: ALLOWED_COMMANDS) "rm"
                                       ["-rf"; "/"] eq_refl)).
Defined.

Lemma sudo_goes_to_sudo_check (args : list string) :
  validate_command_safety "sudo" args = _validate_sudo_command args.
Proof. reflexivity. Qed.

Lemma scan_dangerous_flags_denies (args : list string) (arg : string) :
  In arg args ->
  PyStr.any_contained dangerous_flags arg = true ->
  fst (scan_dangerous_flags args) = false.
Proof.
  induction args as [|a rest IH]; intros Hin Hflag.
  - destruct Hin.
  - cbn [scan_dangerous_flags].
    destruct (PyStr.any_contained dangerous_flags a) eqn:Ha.
    + reflexivity.
    + destruct Hin as [-> | Hin]; [congruence | auto].
Qed.

Lemma scan_dangerous_flags_allows (args : list string) :
  (forall arg, In arg args -> PyStr.any_contained dangerous_flags arg = false) ->
  scan_dangerous_flags args = (true, "Sudo command is safe").
Proof.
  induction args as [|a rest IH]; intros Hall; cbn [scan_dangerous_flags].
  - reflexivity.
  - rewrite (Hall a (or_introl eq_refl)). apply IH.
    intros arg Hin. apply Hall. now right.
Qed.

Lemma sudo_denied_by_flag (args : list string) (arg : string) :
  In arg args ->
  PyStr.any_contained dangerous_flags arg = true ->
  fst (validate_command_safety "sudo" args) = false.
Proof.
  intros Hin Hflag. rewrite sudo_goes_to_sudo_check.
  destruct args as [|a rest]; [destruct Hin|].
  unfold _validate_sudo_command.
  destruct (negb (PyStr.mem a SAFE_SUDO_COMMANDS)); [reflexivity|].
  now apply scan_dangerous_flags_denies with (arg := arg).
Qed.

(** C2: [sudo] without arguments is denied; it is denied when its first
    argument is outside the reduced safe-target set, and when any argument
    contains one of [-rf], [--force], [--no-preserve-root] as a substring;
    [sudo apt-get install -y vim] is allowed, and [sudo apt-get ...] with
    [--force] among the remaining arguments is denied. *)
Theorem sudo_classification :
  fst (validate_command_safety "sudo" []) = false
  /\ (forall target rest,
         PyStr.mem target SAFE_SUDO_COMMANDS = false ->
         fst (validate_command_safety "sudo" (target :: rest)) = false)
  /\ (forall args arg flag,
         In arg args -> In flag dangerous_flags ->
         PyStr.contains flag arg = true ->
         fst (validate_command_safety "sudo" args) = false)
  /\ dangerous_flags = ["-rf"; "--force"; "--no-preserve-root"]
  /\ validate_command_safety "sudo" ["apt-get"; "install"; "-y"; "vim"]
     = (true, "Sudo command is safe")
  /\ (forall rest,
         In "--force" rest ->
         fst (validate_command_safety "sudo" ("apt-get" :: rest)) = false).
Proof.
  split; [reflexivity|].
  split.
  { intros target rest Hout. rewrite sudo_goes_to_sudo_check.
    unfold _validate_sudo_command. now rewrite Hout. }
  split.
  { intros args arg flag Hin Hflag Hsub.
    apply sudo_denied_by_flag with (arg := arg); [assumption|].
    unfold PyStr.any_contained. apply existsb_exists. now exists flag. }
  split; [reflexivity|].
  split; [reflexivity|].
  intros rest Hin.
  apply sudo_denied_by_flag with (arg := "--force").
  - now right.
  - reflexivity.
Qed.

Lemma sudo_classification_witness :
  fst (validate_command_safety "sudo" ["apt-get"; "install"; "-rfv"; "vim"]) = false.
Proof.
  refine (proj1 (proj2 (proj2 sudo_classification))
                ["apt-get"; "install"; "-rfv"; "vim"] "-rfv" "-rf" _ _ _).
  - right. right. left. reflexivity.
  - left. reflexivity.
  - reflexivity.
Defined.

(* ----------------------------------------------------------------- *)
(** ** The plan normaliser *)

Lemma dict_get_set_same (k : string) (v : value) (d : dict) :
  dict_get k (dict_set k v d) = Some v.
Proof.
  induction d as [|[k' v'] rest IH]; cbn.
  - now rewrite String.eqb_refl.
  - destruct (String.eqb k' k) eqn:E; cbn; now rewrite E.
Qed.

Lemma dict_set_twice (k : string) (v : value) (d : dict) :
  dict_set k v (dict_set k v d) = dict_set k v d.
Proof.
  induction d as [|[k' v'] rest IH]; cbn.
  - now rewrite String.eqb_refl.
  - destruct (String.eqb k' k) eqn:E; cbn; rewrite E; [reflexivity|].
    now rewrite IH.
Qed.

(** A step that survives [_process_single_step] has a non-empty string as
    its command, and none of its tokens is a banned operator. *)
Lemma process_single_step_survivor (step cmd : value) (args : list value) :
  _process_single_step step = Ok (Some (cmd, args)) ->
  exists c, cmd = VStr c /\ c <> "" /\ any_banned (cmd :: args) = Ok false.
Proof.
  unfold _process_single_step. intros H.
  assert (Hfin : forall cmd0 args0,
             (safe <- _is_step_safe cmd0 args0 ;;
              if negb safe then Ok None
              else Ok (if truthy cmd0 then Some (cmd0, args0) else None))
             = Ok (Some (cmd, args)) ->
             cmd0 = cmd /\ args0 = args /\ truthy cmd = true
             /\ any_banned (cmd :: args) = Ok false).
  { intros cmd0 args0 H0. unfold _is_step_safe, fmap in H0.
    destruct (any_banned (cmd0 :: args0)) as [b|e] eqn:Hb; cbn in H0;
      [|discriminate].
    destruct b; cbn in H0; [discriminate|].
    destruct (truthy cmd0) eqn:Ht; [|discriminate].
    injection H0 as <- <-. repeat split; assumption. }
  destruct step as [| | | |s|l|d]; cbn [bind fmap] in H; try discriminate.
  - (* a string step *)
    unfold _normalize_string_step in H.
    destruct (Shlex.split s) as [parts|e]; cbn [bind fmap] in H; [|discriminate].
    destruct parts as [|c rest]; cbn [bind fmap] in H.
    + apply Hfin in H. destruct H as (<- & _ & Ht & _). discriminate.
    + apply Hfin in H. destruct H as (<- & _ & Ht & Hb).
      exists c. split; [reflexivity|]. split; [|assumption].
      cbn in Ht. intros ->. discriminate.
  - (* a dict step *)
    unfold _normalize_dict_step in H.
    set (raw_cmd := dict_get_default "command" (VStr "") d) in *.
    destruct (match dict_get_default "args" (VList []) d with
              | VStr s => fmap (map VStr) (Shlex.split s)
              | VList l => Ok l
              | _ => Ok []
              end) as [raw_args|e]; cbn [bind fmap] in H; [|discriminate].
    destruct (if truthy raw_cmd then str_in " " raw_cmd else Ok false)
      as [has_space|e] eqn:Hs; cbn [bind fmap] in H; [|discriminate].
    destruct has_space.
    + destruct (shlex_split_value raw_cmd) as [parts|e]; cbn [bind fmap] in H;
        [|discriminate].
      destruct parts as [|c rest]; cbn [bind fmap] in H; [discriminate|].
      apply Hfin in H. destruct H as (<- & _ & Ht & Hb).
      exists c. split; [reflexivity|]. split; [|assumption].
      cbn in Ht. intros ->. discriminate.
    + cbn [bind fmap] in H. apply Hfin in H. destruct H as (Hc & _ & Ht & Hb).
      rewrite Hc in Hs. rewrite Ht in Hs.
      destruct cmd as [| | | |c|l|d']; cbn in Hs, Hb; try discriminate.
      exists c. split; [reflexivity|]. split; [|assumption].
      cbn in Ht. intros ->. discriminate.
Qed.

(** A normalised step without a space in its command goes through a second
    pass unchanged. *)
Lemma process_single_step_again (c : string) (args : list value) :
  c <> "" ->
  PyStr.contains " " c = false ->
  any_banned (VStr c :: args) = Ok false ->
  _process_single_step (step_dict (VStr c) args) = Ok (Some (VStr c, args)).
Proof.
  intros Hne Hsp Hb.
  assert (Ht : truthy (VStr c) = true).
  { cbn. destruct (String.eqb c "") eqn:E; [|reflexivity].
    apply String.eqb_eq in E. contradiction. }
  unfold _process_single_step, step_dict, _normalize_dict_step.
  change (dict_get_default "command" (VStr "")
            [("command", VStr c); ("args", VList args)]) with (VStr c).
  change (dict_get_default "args" (VList [])
            [("command", VStr c); ("args", VList args)]) with (VList args).
  cbn [bind fmap]. rewrite Ht. cbn [str_in bind]. rewrite Hsp. cbn [bind].
  unfold _is_step_safe, fmap. cbn [bind]. rewrite Hb. cbn [bind negb].
  now rewrite Ht.
Qed.

Lemma normalize_steps_survivors (steps normalized : list value) :
  normalize_steps steps = Ok normalized -> Forall survivor normalized.
Proof.
  revert normalized. induction steps as [|step rest IH]; intros normalized H.
  - cbn in H. injection H as <-. constructor.
  - cbn in H.
    destruct (_process_single_step step) as [r|e] eqn:Hp; cbn in H;
      [|discriminate].
    destruct (normalize_steps rest) as [ns|e]; cbn in H; [|discriminate].
    injection H as <-.
    destruct r as [[cmd args]|]; [|now apply IH].
    constructor; [|now apply IH].
    apply process_single_step_survivor in Hp.
    destruct Hp as (c & -> & Hne & Hb). now exists c, args.
Qed.

Lemma normalize_steps_again (steps : list value) :
  Forall survivor steps ->
  forallb (fun st => negb (step_command_has_space st)) steps = true ->
  normalize_steps steps = Ok steps.
Proof.
  induction 1 as [|step rest Hs _ IH]; intros Hsp; [reflexivity|].
  cbn [forallb] in Hsp. apply andb_true_iff in Hsp. destruct Hsp as [Hsp1 Hsp2].
  destruct Hs as (c & args & -> & Hne & Hb).
  cbn [normalize_steps].
  rewrite (process_single_step_again c args Hne); [|now apply negb_true_iff in Hsp1|assumption].
  cbn [bind]. rewrite (IH Hsp2). reflexivity.
Qed.

(** The guard of [normalize_plan]. *)
Lemma plan_steps_of_none (plan_data : value) :
  is_dict plan_data = false
  \/ (exists d, plan_data = VDict d
                /\ is_list (dict_get_default "plan" VNone d) = false) ->
  plan_steps_of plan_data = None.
Proof.
  intros [H | (d & -> & H)].
  - destruct plan_data; try reflexivity. discriminate.
  - unfold plan_steps_of, dict_get_default in *.
    destruct (dict_get "plan" d) as [[]|]; try reflexivity. discriminate.
Qed.

(** C10: when the argument is not a dict, or [plan_data.get("plan")] is
    not a list (the key is missing, or bound to something else, as in an
    [{"error": ...}] payload), [normalize_plan] returns its argument as it
    is and raises nothing. *)
Theorem normalize_plan_passes_non_plans :
  forall plan_data : value,
    is_dict plan_data = false
    \/ (exists d, plan_data = VDict d
                  /\ is_list (dict_get_default "plan" VNone d) = false) ->
    normalize_plan plan_data = Ok plan_data.
Proof.
  intros plan_data H. unfold normalize_plan.
  now rewrite (plan_steps_of_none plan_data H).
Qed.

Lemma normalize_plan_passes_non_plans_witness :
  normalize_plan (VDict [("error", VStr "extraction failed")])
  = Ok (VDict [("error", VStr "extraction failed")]).
Proof.
  apply normalize_plan_passes_non_plans.
  right. exists [("error", VStr "extraction failed")].
  split; reflexivity.
Defined.

(** C6: a plan whose step has the array [[1, 2]] as its [args]. The
    normaliser keeps the two integers: the normalised step does not have a
    list of strings as its arguments. *)
Theorem normalize_plan_keeps_non_string_args :
  normalize_plan
    (VDict [("plan", VList [VDict [("command", VStr "ls");
                                   ("args", VList [VInt 1; VInt 2])]])])
  = Ok (VDict [("plan", VList [step_dict (VStr "ls") [VInt 1; VInt 2]])])
  /\ strings_of [VInt 1; VInt 2] = None.
Proof. split; reflexivity. Qed.

(** An argument that is itself an array cannot be hashed: the membership
    test of [_is_step_safe] raises and so does [normalize_plan]. *)
Lemma normalize_plan_raises_on_nested_args :
  normalize_plan
    (VDict [("plan", VList [VDict [("command", VStr "ls");
                                   ("args", VList [VList [VStr "-l"]])]])])
  = Raise TypeError.
Proof. reflexivity. Qed.

(** C7, as stated, fails: the plan with the single string step ['a b' c]
    normalises to the command [a b] with argument [c], and a second pass
    splits that command again. *)
Lemma normalize_plan_not_idempotent :
  normalize_plan quoted_plan = Ok quoted_plan_once
  /\ normalize_plan quoted_plan_once = Ok quoted_plan_twice
  /\ quoted_plan_once <> quoted_plan_twice.
Proof.
  split; [reflexivity|]. split; [reflexivity|]. discriminate.
Qed.

(** C7, amended: when the first pass returns a plan none of whose commands
    contains a space, a second pass returns that plan unchanged. *)
Theorem normalize_plan_idempotent_spaceless :
  forall plan_data once : value,
    normalize_plan plan_data = Ok once ->
    commands_spaceless once = true ->
    normalize_plan once = Ok once.
Proof.
  intros plan_data once H Hsp. unfold normalize_plan in H.
  destruct (plan_steps_of plan_data) as [[d steps]|] eqn:Hp.
  - destruct (normalize_steps steps) as [ns|e] eqn:Hn; cbn in H; [|discriminate].
    injection H as <-.
    unfold commands_spaceless, normalize_plan, plan_steps_of in *.
    rewrite dict_get_set_same in *.
    rewrite (normalize_steps_again ns (normalize_steps_survivors _ _ Hn) Hsp).
    cbn [bind]. now rewrite dict_set_twice.
  - injection H as <-. unfold normalize_plan. now rewrite Hp.
Qed.

Lemma normalize_plan_idempotent_spaceless_witness :
  normalize_plan
    (VDict [("plan", VList [VStr "ls -la /tmp"; VStr "a && b";
                            VDict [("command", VStr "find . -name");
                                   ("args", VList [VStr "test.txt"])]])])
  = Ok (VDict [("plan", VList [step_dict (VStr "ls") [VStr "-la"; VStr "/tmp"];
                               step_dict (VStr "find")
                                         [VStr "."; VStr "-name"; VStr "test.txt"]])])
  /\ normalize_plan
       (VDict [("plan", VList [step_dict (VStr "ls") [VStr "-la"; VStr "/tmp"];
                               step_dict (VStr "find")
                                         [VStr "."; VStr "-name"; VStr "test.txt"]])])
     = Ok (VDict [("plan", VList [step_dict (VStr "ls") [VStr "-la"; VStr "/tmp"];
                                  step_dict (VStr "find")
                                            [VStr "."; VStr "-name"; VStr "test.txt"]])]).
Proof.
  split; [reflexivity|].
  apply (normalize_plan_idempotent_spaceless
           (VDict [("plan", VList [VStr "ls -la /tmp"; VStr "a && b";
                                   VDict [("command", VStr "find . -name");
                                          ("args", VList [VStr "test.txt"])]])]));
    reflexivity.
Defined.

(* ----------------------------------------------------------------- *)
(** ** The command executor *)

Section ExecutorFacts.

Context {W : Type} (env : Env W).

Lemma trace_call {A : Type} (f : W -> A * W) (s : sys W) :
  trace (snd (call f s)) = trace s.
Proof.
  unfold call. destruct (f (world s)). reflexivity.
Qed.

Lemma trace_spawn (req : process_request) (s : sys W) :
  trace (snd (spawn env req s)) = (trace s ++ [Spawned req])%list.
Proof.
  unfold spawn. now rewrite trace_call.
Qed.

(** What [_run_command_subprocess] adds to the trace: prints, then the
    spawn, which comes last. *)
Lemma trace_run_command_subprocess (command : string) (args : list string)
      (s : sys W) :
  exists prints,
    trace (snd (_run_command_subprocess env command args s))
    = (trace s ++ prints ++ [Spawned (spawn_request command args)])%list
    /\ existsb is_audit prints = false.
Proof.
  unfold _run_command_subprocess, spawn_request.
  destruct (needs_shell command args); rewrite trace_spawn; cbn [print emit trace].
  - eexists [_; _]. rewrite <- !app_assoc. split; reflexivity.
  - eexists [_]. rewrite <- !app_assoc. split; reflexivity.
Qed.

Lemma trace_log_command_execution (command : string) (args : list string)
      (rc : Z) (result : string) (s : sys W) :
  exists lines,
    trace (log_command_execution command args rc result s)
    = (trace s ++ lines)%list.
Proof.
  unfold log_command_execution.
  destruct (negb (rc =? 0)); cbn [emit trace].
  - eexists [_; _]. now rewrite <- app_assoc.
  - now eexists [_].
Qed.

(** C9: a command the classifier denies makes [execute_command] return
    [(1, rejection message)] with the session state untouched: nothing is
    printed, spawned or logged. And whatever the command, audit lines
    show up in the trace only after the spawn of that very command. *)
Theorem blocked_command_is_not_audited :
  forall (command : string) (args : list string) (s : sys W),
    (fst (validate_command_safety command args) = false ->
     execute_command env command args s
     = ((1, "🚫 Command blocked for safety: "
            ++ snd (validate_command_safety command args) ++ nl), s))
    /\ exists added,
        trace (snd (execute_command env command args s))
        = (trace s ++ added)%list
        /\ (existsb is_audit added = true ->
            fst (validate_command_safety command args) = true
            /\ exists before after,
                added = (before ++ Spawned (spawn_request command args)
                                :: after)%list
                /\ existsb is_audit before = false).
Proof.
  intros command args s. unfold execute_command.
  destruct (validate_command_safety command args) as [is_safe msg].
  destruct is_safe; cbn [fst snd negb].
  - split; [discriminate|].
    destruct (trace_run_command_subprocess command args s)
      as (prints & Htrace & Hprints).
    destruct (_run_command_subprocess env command args s) as [outcome s1].
    cbn [snd] in Htrace.
    assert (Hgen : forall lines,
               exists added,
                 (trace s1 ++ lines = trace s ++ added)%list
                 /\ (existsb is_audit added = true ->
                     true = true
                     /\ exists before after,
                         added = (before ++ Spawned (spawn_request command args)
                                         :: after)%list
                         /\ existsb is_audit before = false)).
    { intros lines. exists (prints ++ Spawned (spawn_request command args) :: lines)%list.
      split.
      - rewrite Htrace. rewrite <- !app_assoc. reflexivity.
      - intros _. split; [reflexivity|]. now exists prints, lines. }
    destruct outcome as [rc out err| |e]; cbn [snd].
    + destruct (trace_log_command_execution command args rc
                  (_format_command_output env out err) s1) as (lines & ->).
      apply Hgen.
    + destruct (Hgen []) as (added & Ha & Hb). exists added.
      rewrite app_nil_r in Ha. now split.
    + destruct (Hgen []) as (added & Ha & Hb). exists added.
      rewrite app_nil_r in Ha. now split.
  - split; [reflexivity|].
    exists []. split; [now rewrite app_nil_r | discriminate].
Qed.

End ExecutorFacts.

Lemma blocked_command_is_not_audited_witness :
  execute_command offline "rm" ["-rf"; "/"] fresh
  = ((1, "🚫 Command blocked for safety: "
         ++ snd (validate_command_safety "rm" ["-rf"; "/"]) ++ nl), fresh).
Proof.
  apply (proj1 (blocked_command_is_not_audited offline "rm" ["-rf"; "/"] fresh)).
  reflexivity.
Defined.

(* ----------------------------------------------------------------- *)
(** ** Substrings *)

Lemma string_app_assoc (a b c : string) : (a ++ b) ++ c = a ++ (b ++ c).
Proof.
  induction a as [|x a IH]; cbn; [reflexivity | now rewrite IH].
Qed.

Lemma prefix_app (p rest : string) : String.prefix p (p ++ rest) = true.
Proof.
  induction p as [|x p IH]; cbn.
  - now destruct rest.
  - destruct (ascii_dec x x); [assumption | contradiction].
Qed.

Lemma contains_unfold (needle hay : string) :
  PyStr.contains needle hay
  = if String.prefix needle hay then true
    else match hay with
         | EmptyString => false
         | String _ rest => PyStr.contains needle rest
         end.
Proof. destruct hay; reflexivity. Qed.

Lemma contains_here (p rest : string) : PyStr.contains p (p ++ rest) = true.
Proof.
  rewrite contains_unfold. now rewrite prefix_app.
Qed.

Lemma contains_app (before p rest : string) :
  PyStr.contains p (before ++ p ++ rest) = true.
Proof.
  induction before as [|x before IH].
  - cbn [String.append]. apply contains_here.
  - rewrite contains_unfold. cbn [String.append]. rewrite IH.
    now destruct (String.prefix _ _).
Qed.

(* ----------------------------------------------------------------- *)
(** ** Fail-fast execution of a plan *)

Lemma exit_zero_is_success (c : string) (a : list string) (result : string) :
  _is_command_successful (content (executed_entry c a 0 result)) = true.
Proof.
  unfold _is_command_successful, executed_entry, system_entry. cbn [content].
  change (PyStr.of_Z 0) with "0".
  replace ("Executed '" ++ cmd_str c a ++ "'. Exit code: " ++ "0"
           ++ ". Result:" ++ nl ++ result)
    with (("Executed '" ++ cmd_str c a ++ "'. ")
          ++ "Exit code: 0" ++ (". Result:" ++ nl ++ result)).
  - now rewrite contains_app.
  - rewrite !string_app_assoc. reflexivity.
Qed.

Lemma benign_not_failed (c : string) (a : list string) (rc : Z) (result : string) :
  benign (executed_entry c a rc result) ->
  _is_command_successful (content (executed_entry c a rc result)) = true.
Proof.
  intros [H | (c' & a' & result' & H)].
  - discriminate H.
  - rewrite H. apply exit_zero_is_success.
Qed.

Lemma split_before_last {A : Type} (pre post init : list A) (e l : A) :
  (pre ++ e :: post = init ++ [l])%list -> post = [] \/ In e init.
Proof.
  intros H. destruct post as [|x post']; [now left | right].
  destruct (exists_last (l := x :: post')) as (post0 & z & Hz); [discriminate|].
  rewrite Hz in H.
  change (pre ++ e :: post0 ++ [z])%list
    with (pre ++ (e :: post0) ++ [z])%list in H.
  rewrite app_assoc in H. apply app_inj_tail in H. destruct H as [<- _].
  apply in_or_app. right. now left.
Qed.

Section PlanFacts.

Context {W : Type} (env : Env W).

(** The history after [execute_plan_steps]: the old one, then benign
    entries, then, exactly when the result is [False], one last entry. *)
Lemma execute_plan_steps_appends (steps : list Step) :
  forall (h : history) (s : sys W),
  exists init tail,
    snd (fst (execute_plan_steps env steps h s)) = (h ++ init ++ tail)%list
    /\ Forall benign init
    /\ ((fst (fst (execute_plan_steps env steps h s)) = true /\ tail = [])
        \/ (fst (fst (execute_plan_steps env steps h s)) = false
            /\ exists last, tail = [last])).
Proof.
  induction steps as [|step rest IH]; intros h s.
  - exists [], []. cbn. rewrite app_nil_r. auto.
  - cbn [execute_plan_steps].
    destruct (String.eqb (command step) "").
    { destruct (IH (append h (system_entry "Skipped invalid step in plan.")) s)
        as (init & tail & Hh & Hb & Hend).
      exists (system_entry "Skipped invalid step in plan." :: init), tail.
      split; [|split; [|exact Hend]].
      - rewrite Hh. unfold append. now rewrite <- app_assoc.
      - constructor; [now left | assumption]. }
    destruct (if String.eqb (command step) "sudo"
              then let '(ok, s0) := confirm_sudo_execution env s in (negb ok, s0)
              else (false, s)) as [declined s1].
    destruct declined.
    { eexists [], [_]. cbn. split; [reflexivity|]. split; [constructor|].
      right. split; [reflexivity|]. now eexists. }
    destruct (execute_command env (command step) (args step) s1)
      as [[rc result] s2].
    destruct (negb (rc =? 0)) eqn:Hrc.
    { eexists [], [_]. cbn. split; [reflexivity|]. split; [constructor|].
      right. split; [reflexivity|]. now eexists. }
    apply negb_false_iff, Z.eqb_eq in Hrc. subst rc.
    destruct (IH (append h (executed_entry (command step) (args step) 0 result))
                 (print result s2)) as (init & tail & Hh & Hb & Hend).
    exists (executed_entry (command step) (args step) 0 result :: init), tail.
    split; [|split; [|exact Hend]].
    + rewrite Hh. unfold append. now rewrite <- app_assoc.
    + constructor; [|assumption]. right. now eexists _, _, _.
Qed.

(** In the history that one run of [execute_plan_steps] appends, the
    record of an executed step that is not a success by the text rule of
    [_is_command_successful] is the last entry, and the run returns
    [False]. *)
Lemma failed_record_is_last :
  forall (steps : list Step) (h : history) (s : sys W)
         (before after : history)
         (c : string) (a : list string) (rc : Z) (result : string),
    snd (fst (execute_plan_steps env steps h s))
    = (h ++ before ++ executed_entry c a rc result :: after)%list ->
    _is_command_successful (content (executed_entry c a rc result)) = false ->
    after = [] /\ fst (fst (execute_plan_steps env steps h s)) = false.
Proof.
  intros steps h s before after c a rc result Hh Hfail.
  destruct (execute_plan_steps_appends steps h s)
    as (init & tail & Hh' & Hb & Hend).
  rewrite Hh in Hh'. apply app_inv_head in Hh'.
  assert (Hnot : ~ In (executed_entry c a rc result) init).
  { intros Hin. rewrite Forall_forall in Hb.
    apply Hb, benign_not_failed in Hin. congruence. }
  destruct Hend as [[Hok ->] | [Hok (last & ->)]].
  - rewrite app_nil_r in Hh'. exfalso. apply Hnot. rewrite <- Hh'.
    apply in_or_app. right. now left.
  - apply split_before_last in Hh'. destruct Hh' as [-> | Hin]; [|contradiction].
    now split.
Qed.

(** Running two lists of steps put end to end is running the first and,
    only when it returned [True], the second from where the first ended. *)
Lemma execute_plan_steps_app (front back : list Step) :
  forall (h : history) (s : sys W),
    execute_plan_steps env (front ++ back) h s
    = let '((ok, h1), s1) := execute_plan_steps env front h s in
      if ok then execute_plan_steps env back h1 s1 else ((false, h1), s1).
Proof.
  induction front as [|step rest IH]; intros h s; [reflexivity|].
  cbn [app execute_plan_steps].
  destruct (String.eqb (command step) ""); [apply IH|].
  destruct (if String.eqb (command step) "sudo"
            then let '(ok, s0) := confirm_sudo_execution env s in (negb ok, s0)
            else (false, s)) as [declined s1].
  destruct declined; [reflexivity|].
  destruct (execute_command env (command step) (args step) s1)
    as [[rc result] s2].
  destruct (negb (rc =? 0)); [reflexivity | apply IH].
Qed.

(** C3: once a run of [execute_plan_steps] is marked failed, the steps
    that come later change nothing: not the flag, not the history, not
    the state with its trace of spawns, prints and audit lines. And a
    step that is executed and exits with a code other than 0 (every step
    that fails by the success rule does) marks the run failed there: the
    run of the whole plan ends in the state that step left, with its
    record as the last history entry and two prints after it; no process
    is spawned after the one of that step, and the result is [False]. *)
Theorem failed_step_halts_plan :
  (forall (front back : list Step) (h : history) (s : sys W),
      fst (fst (execute_plan_steps env front h s)) = false ->
      execute_plan_steps env (front ++ back) h s
      = execute_plan_steps env front h s)
  /\ (forall (before after : list Step) (step : Step) (h h1 : history)
             (s s1 asked s2 : sys W) (rc : Z) (result : string),
         execute_plan_steps env before h s = ((true, h1), s1) ->
         command step <> "" ->
         sudo_gate env step s1 = (false, asked) ->
         execute_command env (command step) (args step) asked
         = ((rc, result), s2) ->
         rc <> 0 ->
         execute_plan_steps env (before ++ step :: after) h s
         = ((false,
             append h1 (executed_entry (command step) (args step) rc result)),
            print "⚠️  Command failed, will re-plan..." (print result s2))
         /\ spawns (trace (snd (execute_plan_steps env (before ++ step :: after)
                                                   h s)))
            = spawns (trace s2)).
Proof.
  split.
  - intros front back h s Hfail. rewrite execute_plan_steps_app.
    destruct (execute_plan_steps env front h s) as [[ok h1] s1].
    cbn [fst] in Hfail. now subst ok.
  - intros before after step h h1 s s1 asked s2 rc result
           Hbefore Hcmd Hgate Hexec Hrc.
    assert (Hrun : execute_plan_steps env (before ++ step :: after) h s
                   = ((false,
                       append h1 (executed_entry (command step) (args step)
                                                 rc result)),
                      print "⚠️  Command failed, will re-plan..."
                            (print result s2))).
    { rewrite execute_plan_steps_app, Hbefore.
      cbn [execute_plan_steps].
      apply String.eqb_neq in Hcmd. rewrite Hcmd.
      unfold sudo_gate in Hgate. rewrite Hgate, Hexec.
      apply Z.eqb_neq in Hrc. now rewrite Hrc. }
    split; [exact Hrun|].
    rewrite Hrun. cbn [snd]. unfold spawns, print, emit. cbn [trace].
    rewrite !filter_app. cbn [filter is_spawn]. now rewrite !app_nil_r.
Qed.

End PlanFacts.

Lemma failed_step_halts_plan_witness :
  execute_plan_steps babbling
    ([] ++ {| command := "ls"; args := ["/nowhere"] |}
        :: [ {| command := "whoami"; args := [] |};
             {| command := "pip"; args := ["install"; "requests"] |} ])
    [user_entry "look around"] fresh
  = ((false,
      append [user_entry "look around"]
             (executed_entry "ls" ["/nowhere"] 2
                ("--- Errors ---" ++ nl ++ "no such file" ++ nl))),
     print "⚠️  Command failed, will re-plan..."
           (print ("--- Errors ---" ++ nl ++ "no such file" ++ nl)
                  (snd (execute_command babbling "ls" ["/nowhere"] fresh))))
  /\ spawns (trace (snd (execute_plan_steps babbling
                           ([] ++ {| command := "ls"; args := ["/nowhere"] |}
                               :: [ {| command := "whoami"; args := [] |};
                                    {| command := "pip";
                                       args := ["install"; "requests"] |} ])
                           [user_entry "look around"] fresh)))
     = spawns (trace (snd (execute_command babbling "ls" ["/nowhere"] fresh))).
Proof.
  apply (proj2 (failed_step_halts_plan babbling)
               [] [ {| command := "whoami"; args := [] |};
                    {| command := "pip"; args := ["install"; "requests"] |} ]
               {| command := "ls"; args := ["/nowhere"] |}
               [user_entry "look around"] [user_entry "look around"]
               fresh fresh fresh
               (snd (execute_command babbling "ls" ["/nowhere"] fresh))
               2 ("--- Errors ---" ++ nl ++ "no such file" ++ nl)).
  - reflexivity.
  - discriminate.
  - reflexivity.
  - reflexivity.
  - lia.
Defined.

(** A record that is not a success, by the text rule of
    [_is_command_successful] or by the rule on the command name and the
    exit code, has an exit code other than 0. *)
Lemma failure_has_nonzero_exit (c : string) (a : list string) (rc : Z)
      (result : string) :
  _is_command_successful (content (executed_entry c a rc result)) = false
  \/ ~ (rc = 0 \/ (c = "which" /\ rc = 1)) ->
  rc <> 0.
Proof.
  intros [Htext | Hrule] ->.
  - now rewrite exit_zero_is_success in Htext.
  - apply Hrule. now left.
Qed.

Section WhichExitsOne.

(** A [which] step that exits with 1 counts as a success by the rule of
    [_is_command_successful], and still ends the run of the plan: the
    loop of [execute_plan_steps] looks at the raw exit code. *)
Lemma which_exit_one_halts_too :
  execute_plan_steps missing_tool
    [ {| command := "which"; args := ["calc"] |};
      {| command := "whoami"; args := [] |} ]
    [] fresh
  = ((false,
      [executed_entry "which" ["calc"] 1
         ("Command executed successfully with no output." ++ nl)]),
     snd (execute_plan_steps missing_tool
            [ {| command := "which"; args := ["calc"] |} ] [] fresh))
  /\ _is_command_successful
       (content (executed_entry "which" ["calc"] 1
                   ("Command executed successfully with no output." ++ nl)))
     = true.
Proof. split; reflexivity. Qed.

End WhichExitsOne.

(* ----------------------------------------------------------------- *)
(** ** History compression *)

Lemma length_middle (h : history) : length (middle h) = (length h - 4)%nat.
Proof.
  unfold middle. rewrite length_firstn, length_skipn. lia.
Qed.

Lemma length_last_n (n : nat) (h : history) :
  length (last_n n h) = Nat.min n (length h).
Proof.
  unfold last_n. rewrite length_skipn. lia.
Qed.

Section HistoryFacts.

Context {W : Type} (env : Env W).

(** One unfolding of [summarize_old_history] on a history of more than
    five entries. *)
Lemma summarize_old_history_long (fuel : nat) (h : history) (s : sys W) :
  (5 < length h)%nat ->
  summarize_old_history env (S fuel) h s
  = let '(response, s1) :=
      call (post_summary env (middle h)) (emit (SummaryRequested (middle h)) s) in
    match response with
    | Some summary =>
        Some ((firstn 1 h ++ summary_note summary :: last_n 3 h)%list, s1)
    | None =>
        if (estimate_context_size h <=? MAX_CONTEXT_SIZE)%nat then Some (h, s1)
        else summarize_old_history env fuel h s1
    end.
Proof.
  intros Hlen. cbn [summarize_old_history].
  destruct (length h <=? 5)%nat eqn:E; [apply Nat.leb_le in E; lia|].
  pose proof (length_middle h) as Hm.
  destruct (middle h) as [|m rest] eqn:Em; [cbn in Hm; lia|].
  destruct (call _ _) as [response s1].
  destruct response; [|reflexivity].
  destruct h; [cbn in Hlen; lia | reflexivity].
Qed.

(** C8, amended: on a history of more than five entries, a successful
    summary request gives the splice of the first entry, the summary note
    and the last three entries, five entries in all; a failed request on a
    history whose serialisation has at most 4000 characters gives the
    history back as it is. *)
Theorem summarize_old_history_splice_or_same :
  forall (fuel : nat) (h : history) (s : sys W),
    (5 < length h)%nat ->
    let asked :=
      call (post_summary env (middle h)) (emit (SummaryRequested (middle h)) s) in
    match fst asked with
    | Some summary =>
        summarize_old_history env (S fuel) h s
        = Some ((firstn 1 h ++ summary_note summary :: last_n 3 h)%list, snd asked)
        /\ length (firstn 1 h ++ summary_note summary :: last_n 3 h)%list = 5%nat
    | None =>
        (estimate_context_size h <= MAX_CONTEXT_SIZE)%nat ->
        summarize_old_history env (S fuel) h s = Some (h, snd asked)
    end.
Proof.
  intros fuel h s Hlen asked.
  rewrite (summarize_old_history_long fuel h s Hlen).
  fold asked. destruct asked as [response s1]. cbn [fst snd].
  destruct response as [summary|].
  - split; [reflexivity|].
    rewrite length_app, length_firstn. cbn [length].
    rewrite length_last_n. lia.
  - intros Hsmall. apply Nat.leb_le in Hsmall. now rewrite Hsmall.
Qed.

(** With a backend that fails on every request, the fallback on a long,
    large history asks again and again: no amount of fuel lets the call
    return. *)
Lemma summarize_retry_never_returns (h : history) :
  (forall old w, fst (post_summary env old w) = None) ->
  (5 < length h)%nat ->
  (MAX_CONTEXT_SIZE < estimate_context_size h)%nat ->
  forall (fuel : nat) (s : sys W), summarize_old_history env fuel h s = None.
Proof.
  intros Hfail Hlen Hbig fuel.
  induction fuel as [|fuel IH]; intros s; [reflexivity|].
  rewrite (summarize_old_history_long fuel h s Hlen).
  unfold call. specialize (Hfail (middle h)
                                 (world (emit (SummaryRequested (middle h)) s))).
  destruct (post_summary env (middle h) _) as [response w]. cbn in Hfail.
  subst response.
  destruct (estimate_context_size h <=? MAX_CONTEXT_SIZE)%nat eqn:E.
  - apply Nat.leb_le in E. lia.
  - apply IH.
Qed.

End HistoryFacts.

Lemma summarize_old_history_splice_or_same_witness :
  summarize_old_history babbling 1 six_entries fresh
  = Some ([ user_entry "install vim";
            summary_note "two plans could not be parsed";
            assistant_entry "plan 2";
            system_entry "result 2";
            assistant_entry "plan 3" ],
          snd (call (post_summary babbling (middle six_entries))
                    (emit (SummaryRequested (middle six_entries)) fresh))).
Proof.
  refine (proj1 (summarize_old_history_splice_or_same babbling 0 six_entries
                   fresh _)).
  cbn. lia.
Defined.

(** C8, as stated, fails: the summary request fails on a history of six
    short entries, and what comes back is the same six entries, not a
    splice of five with a placeholder. *)
Lemma failed_summary_returns_history_unchanged :
  option_map fst (summarize_old_history offline 3 six_entries fresh)
  = Some six_entries
  /\ length six_entries = 6%nat
  /\ forall note,
      six_entries <> (firstn 1 six_entries ++ note :: last_n 3 six_entries)%list.
Proof.
  split; [reflexivity|]. split; [reflexivity|].
  intros note H. apply (f_equal (@length entry)) in H. discriminate H.
Qed.

(* ----------------------------------------------------------------- *)
(** ** The iteration counter and the control loop *)

Section LoopFacts.

Context {W : Type} (env : Env W).

Lemma requests_call {A : Type} (f : W -> A * W) (s : sys W) :
  summary_requests (trace (snd (call f s))) = summary_requests (trace s).
Proof.
  unfold call. destruct (f (world s)). reflexivity.
Qed.

Lemma requests_print (text : string) (s : sys W) :
  summary_requests (trace (print text s)) = summary_requests (trace s).
Proof.
  unfold summary_requests, print, emit. cbn [trace].
  rewrite filter_app. cbn. apply app_nil_r.
Qed.

Lemma requests_choice (s : sys W) :
  summary_requests (trace (snd (get_user_continuation_choice env s)))
  = summary_requests (trace s).
Proof.
  unfold get_user_continuation_choice.
  pose proof (requests_call (read_input env CONTINUE_PROMPT) s) as H.
  destruct (call _ s) as [[line|] s1]; exact H.
Qed.

(** What [_handle_user_choice] returns: the counter is 0, or nothing was
    compressed and the counter is the one passed in. *)
Lemma handle_user_choice_counter (fuel : nat) (user_input : string)
      (h : history) (iteration : Z) (s : sys W) :
  match _handle_user_choice env fuel user_input h iteration s with
  | Returned (_, h', iteration') s' =>
      iteration' = 0
      \/ (iteration' = iteration /\ h' = h
          /\ summary_requests (trace s') = summary_requests (trace s))
  | NoReturn => exists s1, summarize_old_history env fuel h s1 = None
  | Crashed _ _ | OutsideModel _ => False
  end.
Proof.
  unfold _handle_user_choice.
  destruct (String.eqb user_input "q"); [now left|].
  destruct (String.eqb user_input "r").
  { destruct (summarize_old_history env fuel h _) as [[h' s']|] eqn:E.
    - now left.
    - eexists. exact E. }
  destruct (String.eqb user_input "a").
  - right. rewrite requests_print. now repeat split.
  - right. now repeat split.
Qed.

(** C5, amended: when [handle_iteration_control] returns, the counter it
    returns is 0, and that covers both of its compressions, the restart
    the user asks for and the automatic one at 5 iterations, whether the
    summary request worked or the fallback ran; otherwise it has
    compressed nothing: the history and the counter are the ones passed
    in and no summary was requested. It fails to return only when
    [summarize_old_history] does. *)
Theorem iteration_control_resets_counter :
  forall (fuel : nat) (iteration : Z) (h : history) (s : sys W),
    match handle_iteration_control env fuel iteration h s with
    | Returned (_, h', iteration') s' =>
        iteration' = 0
        \/ (iteration' = iteration /\ h' = h
            /\ summary_requests (trace s') = summary_requests (trace s))
    | NoReturn => exists s1, summarize_old_history env fuel h s1 = None
    | Crashed _ _ | OutsideModel _ => False
    end.
Proof.
  intros fuel iteration h s. unfold handle_iteration_control.
  assert (Hq : summary_requests
                 (trace (snd (if 3 <=? iteration
                              then call (stdin_isatty env) s else (false, s))))
               = summary_requests (trace s)).
  { destruct (3 <=? iteration); [apply requests_call | reflexivity]. }
  destruct (if 3 <=? iteration then call (stdin_isatty env) s else (false, s))
    as [interactive s1]. cbn [snd] in Hq.
  destruct interactive.
  - pose proof (requests_choice s1) as Hc.
    destruct (get_user_continuation_choice env s1) as [user_input s2].
    cbn [snd] in Hc.
    pose proof (handle_user_choice_counter fuel user_input h iteration s2) as Hu.
    destruct (_handle_user_choice env fuel user_input h iteration s2)
      as [[[c h'] it'] s'| | |]; try exact Hu.
    destruct Hu as [Hu | (Hi & Hh & Hr)]; [now left | right].
    repeat split; try assumption. congruence.
  - destruct (5 <=? iteration).
    + destruct (summarize_old_history env fuel h _) as [[h' s']|] eqn:E.
      * now left.
      * eexists. exact E.
    + right. now repeat split.
Qed.

End LoopFacts.

(** C5, as stated, fails: a session whose request is 4000 characters long
    and whose plans never parse compresses its history during the
    planning of the fourth pass (a summary is requested and its note is
    the second entry), and the counter after that pass is 4. *)
Lemma planning_compression_keeps_counter :
  match babbling_session with
  | Returned (Continue iteration h) s =>
      iteration = 4
      /\ nth_error h 1 = Some (summary_note "two plans could not be parsed")
      /\ length h = 7%nat
      /\ length (summary_requests (trace s)) = 1%nat
  | _ => False
  end.
Proof.
  vm_compute. repeat split.
Qed.

(** C4: with the backend down every pass fails in its execution phase and
    goes straight back to the top of the loop. After twenty passes the
    counter is 20, the loop is about to start the next pass, and the
    message about the maximum of iterations has not been printed. *)
Theorem failed_passes_skip_the_ceiling :
  match offline_session with
  | Returned (Continue iteration h) s =>
      iteration = 20
      /\ length h = 41%nat
      /\ existsb mentions_max_iterations (trace s) = false
  | _ => False
  end.
Proof.
  vm_compute. repeat split.
Qed.

(* ================================================================= *)
(** * Further properties of the code *)

(* ----------------------------------------------------------------- *)
(** ** The classifier, in full *)

Lemma scan_dangerous_flags_verdict (args : list string) :
  fst (scan_dangerous_flags args) = true
  <-> forall arg, In arg args -> PyStr.any_contained dangerous_flags arg = false.
Proof.
  split.
  - intros Hok arg Hin.
    destruct (PyStr.any_contained dangerous_flags arg) eqn:E; [|reflexivity].
    rewrite (scan_dangerous_flags_denies args arg Hin E) in Hok. discriminate.
  - intros Hall. now rewrite (scan_dangerous_flags_allows args Hall).
Qed.

(** X1: the verdict is Allowed exactly when the command is outside the
    deny-set, inside the allow-set, and, for [sudo], has a first argument
    in the safe-target set and no argument containing a dangerous flag. *)
Theorem validate_allowed_iff :
  forall (command : string) (args : list string),
    fst (validate_command_safety command args) = true
    <-> (PyStr.mem command DANGEROUS_COMMANDS = false
         /\ PyStr.mem command ALLOWED_COMMANDS = true
         /\ (command = "sudo" ->
             exists target rest,
               args = target :: rest
               /\ PyStr.mem target SAFE_SUDO_COMMANDS = true
               /\ forall arg, In arg args ->
                              PyStr.any_contained dangerous_flags arg = false)).
Proof.
  intros command args.
  unfold validate_command_safety, validate_with, check_basic_with.
  destruct (PyStr.mem command DANGEROUS_COMMANDS); cbn [negb fst].
  { split; [discriminate | intros (H & _); discriminate]. }
  destruct (PyStr.mem command ALLOWED_COMMANDS); cbn [negb fst].
  2:{ split; [discriminate | intros (_ & H & _); discriminate]. }
  destruct (String.eqb command "sudo") eqn:Es.
  - apply String.eqb_eq in Es. subst command.
    unfold _validate_sudo_command. destruct args as [|target rest].
    + split; [discriminate|]. intros (_ & _ & H).
      destruct (H eq_refl) as (t & r & Habs & _). discriminate.
    + destruct (PyStr.mem target SAFE_SUDO_COMMANDS) eqn:Et; cbn [negb].
      * rewrite scan_dangerous_flags_verdict. split.
        -- intros Hall. repeat split; try reflexivity.
           intros _. now exists target, rest.
        -- intros (_ & _ & H). destruct (H eq_refl) as (t & r & _ & _ & Hall).
           exact Hall.
      * split; [discriminate|]. intros (_ & _ & H).
        destruct (H eq_refl) as (t & r & Heq & Ht & _).
        injection Heq as <- <-. congruence.
  - apply String.eqb_neq in Es. cbn [fst]. split; [|reflexivity].
    intros _. repeat split; try reflexivity. intros Habs. contradiction.
Qed.

(** X2: the arguments of a command other than [sudo] are never looked
    at: the verdict and its message are the same for every argument list. *)
Theorem arguments_ignored_unless_sudo :
  forall (command : string) (args args' : list string),
    command <> "sudo" ->
    validate_command_safety command args = validate_command_safety command args'.
Proof.
  intros command args args' Hne.
  unfold validate_command_safety, validate_with.
  destruct (check_basic_with DANGEROUS_COMMANDS ALLOWED_COMMANDS command)
    as [is_safe message].
  apply String.eqb_neq in Hne. rewrite Hne. reflexivity.
Qed.

Lemma arguments_ignored_unless_sudo_witness :
  validate_command_safety "find" ["/"; "-delete"]
  = validate_command_safety "find" [].
Proof.
  apply arguments_ignored_unless_sudo. discriminate.
Defined.

Lemma scan_dangerous_flags_first (clean rest : list string) (arg : string) :
  (forall x, In x clean -> PyStr.any_contained dangerous_flags x = false) ->
  PyStr.any_contained dangerous_flags arg = true ->
  scan_dangerous_flags (clean ++ arg :: rest)
  = (false, "Dangerous flag detected: " ++ arg).
Proof.
  induction clean as [|x clean IH]; intros Hclean Hflag; cbn [app scan_dangerous_flags].
  - now rewrite Hflag.
  - rewrite (Hclean x (or_introl eq_refl)). apply IH; [|assumption].
    intros y Hy. apply Hclean. now right.
Qed.

(** X3: when [sudo] has a safe target, the rejection names the first
    argument, in order, that contains a dangerous flag. *)
Theorem sudo_rejection_names_first_flagged_argument :
  forall (target arg : string) (clean rest : list string),
    PyStr.mem target SAFE_SUDO_COMMANDS = true ->
    (forall x, In x (target :: clean) ->
               PyStr.any_contained dangerous_flags x = false) ->
    PyStr.any_contained dangerous_flags arg = true ->
    validate_command_safety "sudo" (target :: clean ++ arg :: rest)
    = (false, "Dangerous flag detected: " ++ arg).
Proof.
  intros target arg clean rest Ht Hclean Hflag.
  rewrite sudo_goes_to_sudo_check. unfold _validate_sudo_command.
  rewrite Ht. cbn [negb].
  exact (scan_dangerous_flags_first (target :: clean) rest arg Hclean Hflag).
Qed.

Lemma sudo_rejection_names_first_flagged_argument_witness :
  validate_command_safety "sudo"
    ["pacman"; "-S"; "--force-yes"; "vim"; "-rf"]
  = (false, "Dangerous flag detected: --force-yes").
Proof.
  apply (sudo_rejection_names_first_flagged_argument
           "pacman" "--force-yes" ["-S"] ["vim"; "-rf"]).
  - reflexivity.
  - intros x [<- | [<- | []]]; reflexivity.
  - reflexivity.
Defined.

(* ----------------------------------------------------------------- *)
(** ** Quoting and tokenising *)

Lemma string_app_nil_r (s : string) : s ++ "" = s.
Proof.
  induction s as [|c s IH]; cbn; [reflexivity | now rewrite IH].
Qed.

(** A character [shlex.quote] leaves alone means nothing to the lexer. *)
Lemma safe_char_is_plain (c : ascii) :
  ShlexQuote.is_safe_char c = true ->
  Shlex.is_whitespace c = false /\ Shlex.is_quote c = false
  /\ Shlex.is_escape c = false.
Proof.
  destruct c as [[] [] [] [] [] [] [] []]; vm_compute; intros H;
    try discriminate H; repeat split.
Qed.

Lemma tokens_plain (word rest : string) :
  ShlexQuote.all_safe word = true ->
  forall (esc : Shlex.lex_state) (quoted : bool) (token : string),
    Shlex.tokens (word ++ rest) Shlex.InWord esc quoted token
    = Shlex.tokens rest Shlex.InWord esc quoted (token ++ word).
Proof.
  induction word as [|c word IH]; intros Hsafe esc quoted token.
  - cbn [String.append]. now rewrite string_app_nil_r.
  - cbn [ShlexQuote.all_safe] in Hsafe. apply andb_true_iff in Hsafe.
    destruct Hsafe as [Hc Hword].
    destruct (safe_char_is_plain c Hc) as (Hw & Hq & He).
    cbn [String.append Shlex.tokens]. rewrite Hw, Hq, He.
    rewrite (IH Hword). unfold Shlex.push.
    now rewrite string_app_assoc.
Qed.

(** Inside single quotes the lexer takes every character of the escaped
    text as it is, up to the closing quote. *)
Lemma tokens_single_quoted (s rest : string) :
  forall (esc : Shlex.lex_state) (quoted : bool) (token : string),
    Shlex.tokens (ShlexQuote.escape_single_quotes s ++ ShlexQuote.sq ++ rest)
                 (Shlex.InQuote Shlex.single_quote) esc quoted token
    = Shlex.tokens rest Shlex.InWord esc true (token ++ s).
Proof.
  induction s as [|c s IH]; intros esc quoted token.
  - cbn. now rewrite string_app_nil_r.
  - cbn [ShlexQuote.escape_single_quotes].
    destruct (Ascii.eqb c Shlex.single_quote) eqn:Ec.
    + apply Ascii.eqb_eq in Ec. subst c.
      rewrite !string_app_assoc.
      set (R := ShlexQuote.escape_single_quotes s ++ ShlexQuote.sq ++ rest) in *.
      cbn. etransitivity; [exact (IH esc true _)|].
      unfold Shlex.push. now rewrite string_app_assoc.
    + set (R := ShlexQuote.escape_single_quotes s ++ ShlexQuote.sq ++ rest) in *.
      cbn [String.append Shlex.tokens]. rewrite Ec.
      replace (Shlex.is_escape c && Shlex.in_escapedquotes Shlex.single_quote)
        with false by (now rewrite andb_false_r).
      rewrite IH. unfold Shlex.push. now rewrite string_app_assoc.
Qed.

(** Reading [shlex.quote(s)] from the start of a token leaves the lexer in
    a word whose text is [s], and that word will be emitted. *)
Lemma tokens_quote (s rest : string) (esc : Shlex.lex_state) :
  exists quoted,
    Shlex.tokens (ShlexQuote.quote s ++ rest) Shlex.InSpace esc false ""
    = Shlex.tokens rest Shlex.InWord esc quoted s
    /\ Shlex.has_token s quoted = true.
Proof.
  unfold ShlexQuote.quote.
  assert (Hq : forall t,
             Shlex.tokens ((ShlexQuote.sq ++ ShlexQuote.escape_single_quotes t
                            ++ ShlexQuote.sq) ++ rest) Shlex.InSpace esc false ""
             = Shlex.tokens rest Shlex.InWord esc true t).
  { intros t. rewrite !string_app_assoc.
    set (R := ShlexQuote.escape_single_quotes t ++ ShlexQuote.sq ++ rest).
    cbn. exact (tokens_single_quoted t rest esc false ""). }
  destruct (String.eqb s "") eqn:Ee.
  { apply String.eqb_eq in Ee. subst s. exists true.
    split; [exact (Hq "") | reflexivity]. }
  destruct (ShlexQuote.all_safe s) eqn:Hs.
  - exists false. destruct s as [|c s]; [discriminate|]. split; [|reflexivity].
    cbn [ShlexQuote.all_safe] in Hs. apply andb_true_iff in Hs.
    destruct Hs as [Hc Hs].
    destruct (safe_char_is_plain c Hc) as (Hw & Hqu & He).
    cbn [String.append Shlex.tokens]. rewrite Hw, Hqu, He.
    now rewrite (tokens_plain s rest Hs).
  - exists true. split; [apply Hq|].
    unfold Shlex.has_token. now rewrite orb_true_r.
Qed.

Lemma tokens_quoted_words (words : list string) :
  Shlex.tokens (PyStr.join " " (map ShlexQuote.quote words))
               Shlex.InSpace Shlex.InSpace false ""
  = Ok words.
Proof.
  induction words as [|w words IH]; [reflexivity|].
  destruct words as [|w' words].
  - cbn [map PyStr.join String.concat].
    destruct (tokens_quote w "" Shlex.InSpace) as (quoted & Ht & Hhas).
    rewrite string_app_nil_r in Ht. rewrite Ht. cbn [Shlex.tokens].
    now rewrite Hhas.
  - change (PyStr.join " " (map ShlexQuote.quote (w :: w' :: words)))
      with (ShlexQuote.quote w
            ++ String " " (PyStr.join " " (map ShlexQuote.quote (w' :: words)))).
    destruct (tokens_quote w
                (String " " (PyStr.join " " (map ShlexQuote.quote (w' :: words))))
                Shlex.InSpace) as (quoted & Ht & Hhas).
    rewrite Ht. cbn [Shlex.tokens].
    change (Shlex.is_whitespace " ") with true. cbn iota.
    rewrite Hhas. rewrite IH. reflexivity.
Qed.

(** X4: quoting each argument with [shlex.quote] and joining with spaces
    gives a line that [shlex.split] takes apart into the same arguments,
    whatever characters they contain. *)
Theorem split_inverts_quote :
  forall args : list string,
    Shlex.split (PyStr.join " " (map ShlexQuote.quote args)) = Ok args.
Proof.
  intros args. apply tokens_quoted_words.
Qed.




(* ----------------------------------------------------------------- *)
(** ** What normalisation guarantees *)

Import Observations.

Lemma any_banned_clean (tokens : list value) :
  any_banned tokens = Ok false <-> Forall clean_token tokens.
Proof.
  induction tokens as [|t tokens IH]; cbn [any_banned].
  - split; [constructor | reflexivity].
  - destruct t as [| | | |s| |]; cbn [clean_token];
      try (rewrite IH; split;
           [intros H; constructor; [exact I | exact H]
           | intros H; inversion H; assumption]);
      try (split; [discriminate | intros H; inversion H; contradiction]).
    destruct (PyStr.mem s banned) eqn:E.
    + split; [discriminate|]. intros H. inversion H as [|? ? Hc _].
      change (PyStr.mem s banned = false) in Hc. congruence.
    + rewrite IH. split.
      * intros H. constructor; [exact E | exact H].
      * intros H. inversion H; assumption.
Qed.

(** X6: every step of a plan that [normalize_plan] has normalised is a
    dict [{"command": c, "args": args}] whose command is a non-empty
    string, and neither the command nor any argument is one of the banned
    operator tokens, a list or a dict. *)
Theorem normalized_steps_are_clean :
  forall (plan_data once : value) (d : dict) (steps : list value),
    plan_steps_of plan_data = Some (d, steps) ->
    normalize_plan plan_data = Ok once ->
    exists normalized,
      once = VDict (dict_set "plan" (VList normalized) d)
      /\ plan_steps_of once
         = Some (dict_set "plan" (VList normalized) d, normalized)
      /\ Forall (fun step =>
                   exists c args,
                     step = step_dict (VStr c) args
                     /\ c <> ""
                     /\ Forall clean_token (VStr c :: args))
                normalized.
Proof.
  intros plan_data once d steps Hp H. unfold normalize_plan in H.
  rewrite Hp in H.
  destruct (normalize_steps steps) as [normalized|e] eqn:Hn; cbn in H;
    [|discriminate].
  injection H as <-. exists normalized. split; [reflexivity|]. split.
  - unfold plan_steps_of. now rewrite dict_get_set_same.
  - pose proof (normalize_steps_survivors _ _ Hn) as Hs.
    rewrite Forall_forall in *. intros step Hin.
    destruct (Hs step Hin) as (c & args & -> & Hne & Hb).
    exists c, args. repeat split; try assumption.
    now apply any_banned_clean.
Qed.

Lemma normalized_steps_are_clean_witness :
  exists normalized,
    VDict [("model", VStr "m");
           ("plan", VList [step_dict (VStr "ls") [VStr "-la"]])]
    = VDict (dict_set "plan" (VList normalized)
               [("model", VStr "m"); ("plan", VList [VStr "ls -la"; VStr "a | b"])])
    /\ plan_steps_of
         (VDict [("model", VStr "m");
                 ("plan", VList [step_dict (VStr "ls") [VStr "-la"]])])
       = Some (dict_set "plan" (VList normalized)
                 [("model", VStr "m"); ("plan", VList [VStr "ls -la"; VStr "a | b"])],
               normalized)
    /\ Forall (fun step =>
                 exists c args,
                   step = step_dict (VStr c) args
                   /\ c <> ""
                   /\ Forall clean_token (VStr c :: args))
              normalized.
Proof.
  apply (normalized_steps_are_clean
           (VDict [("model", VStr "m");
                   ("plan", VList [VStr "ls -la"; VStr "a | b"])])
           _ _ [VStr "ls -la"; VStr "a | b"]); reflexivity.
Defined.

Lemma dict_get_set_other (k k0 : string) (v : value) (d : dict) :
  k <> k0 -> dict_get k (dict_set k0 v d) = dict_get k d.
Proof.
  intros Hne. induction d as [|[k' v'] rest IH]; cbn.
  - destruct (String.eqb k0 k) eqn:E; [|reflexivity].
    apply String.eqb_eq in E. congruence.
  - destruct (String.eqb k' k0) eqn:E0; cbn.
    + apply String.eqb_eq in E0. subst k'.
      destruct (String.eqb k0 k) eqn:E; [|reflexivity].
      apply String.eqb_eq in E. congruence.
    + now rewrite IH.
Qed.

Lemma dict_set_keys (k : string) (v v0 : value) (d : dict) :
  dict_get k d = Some v0 -> map fst (dict_set k v d) = map fst d.
Proof.
  induction d as [|[k' v'] rest IH]; cbn; [discriminate|].
  destruct (String.eqb k' k); cbn; [reflexivity|].
  intros H. now rewrite IH.
Qed.

(** X7: [normalize_plan] touches nothing but the value under ["plan"]:
    the dict keeps its keys in their order, and every other key keeps its
    value. *)
Theorem normalize_plan_keeps_other_keys :
  forall (d : dict) (once : value),
    normalize_plan (VDict d) = Ok once ->
    exists d',
      once = VDict d'
      /\ map fst d' = map fst d
      /\ forall k, k <> "plan" -> dict_get k d' = dict_get k d.
Proof.
  intros d once H. unfold normalize_plan, plan_steps_of in H.
  destruct (dict_get "plan" d) as [[| | | | |steps|]|] eqn:Hg;
    try (injection H as <-; exists d; now repeat split).
  destruct (normalize_steps steps) as [normalized|e]; cbn in H; [|discriminate].
  injection H as <-. eexists. split; [reflexivity|]. split.
  - now apply dict_set_keys with (v0 := VList steps).
  - intros k Hk. now apply dict_get_set_other.
Qed.

Lemma normalize_plan_keeps_other_keys_witness :
  exists d',
    VDict [("note", VInt 7); ("plan", VList [step_dict (VStr "ls") []])]
    = VDict d'
    /\ map fst d' = map fst [("note", VInt 7); ("plan", VList [VStr "ls"; VInt 3])]
    /\ forall k, k <> "plan" ->
                 dict_get k d'
                 = dict_get k [("note", VInt 7); ("plan", VList [VStr "ls"; VInt 3])].
Proof.
  apply (normalize_plan_keeps_other_keys
           [("note", VInt 7); ("plan", VList [VStr "ls"; VInt 3])]).
  reflexivity.
Defined.

Lemma normalize_steps_length (steps normalized : list value) :
  normalize_steps steps = Ok normalized ->
  (length normalized <= length steps)%nat.
Proof.
  revert normalized. induction steps as [|step rest IH]; intros normalized H.
  - cbn in H. injection H as <-. reflexivity.
  - cbn [normalize_steps] in H.
    destruct (_process_single_step step) as [r|e]; cbn [bind] in H;
      [|discriminate].
    destruct (normalize_steps rest) as [ns|e]; cbn [bind] in H; [|discriminate].
    injection H as <-. specialize (IH ns eq_refl).
    destruct r as [[cmd args]|]; cbn [length]; lia.
Qed.

(** X8: steps are normalised one by one and in order: the normalised form
    of two lists of steps put end to end is the two normalised forms put
    end to end, and it never has more steps than it was given. *)
Theorem normalize_steps_app :
  forall (front back nfront nback : list value),
    normalize_steps front = Ok nfront ->
    normalize_steps back = Ok nback ->
    normalize_steps (front ++ back) = Ok (nfront ++ nback)%list
    /\ (length (nfront ++ nback) <= length (front ++ back))%nat.
Proof.
  intros front back nfront nback Hf Hb.
  assert (Happ : normalize_steps (front ++ back) = Ok (nfront ++ nback)%list).
  { revert nfront Hf. induction front as [|step rest IH]; intros nfront Hf.
    - cbn in Hf. injection Hf as <-. exact Hb.
    - cbn [normalize_steps app] in *.
      destruct (_process_single_step step) as [r|e]; cbn [bind] in *;
        [|discriminate].
      destruct (normalize_steps rest) as [ns|e]; cbn [bind] in Hf;
        [|discriminate].
      injection Hf as <-. rewrite (IH ns eq_refl). cbn [bind].
      now destruct r as [[cmd args]|]. }
  split; [exact Happ|]. now apply normalize_steps_length.
Qed.

Lemma normalize_steps_app_witness :
  normalize_steps ([VStr "ls -la"; VInt 4] ++ [VStr "a && b"; VStr "whoami"])
  = Ok ([step_dict (VStr "ls") [VStr "-la"]] ++ [step_dict (VStr "whoami") []])%list
  /\ (length ([step_dict (VStr "ls") [VStr "-la"]]
              ++ [step_dict (VStr "whoami") []])
      <= length ([VStr "ls -la"; VInt 4] ++ [VStr "a && b"; VStr "whoami"]))%nat.
Proof.
  apply normalize_steps_app; reflexivity.
Defined.

Lemma any_banned_strings (parts : list string) (t : string) :
  In t parts -> PyStr.mem t banned = true ->
  any_banned (map VStr parts) = Ok true.
Proof.
  induction parts as [|p parts IH]; intros Hin Hb; [destruct Hin|].
  cbn [map any_banned]. destruct (PyStr.mem p banned) eqn:E; [reflexivity|].
  destruct Hin as [-> | Hin]; [congruence | auto].
Qed.

(** X9: a string step one of whose tokens is exactly a banned operator is
    dropped, and the steps after it are normalised as if it had not been
    there. *)
Theorem operator_step_is_dropped :
  forall (line : string) (parts : list string) (t : string)
         (rest : list value),
    Shlex.split line = Ok parts ->
    In t parts -> PyStr.mem t banned = true ->
    _process_single_step (VStr line) = Ok None
    /\ normalize_steps (VStr line :: rest) = normalize_steps rest.
Proof.
  intros line parts t rest Hs Hin Hb.
  assert (Hp : _process_single_step (VStr line) = Ok None).
  { unfold _process_single_step, _normalize_string_step.
    rewrite Hs. cbn [bind fmap].
    destruct parts as [|c parts']; [destruct Hin|].
    unfold _is_step_safe, fmap. cbn [bind].
    change (VStr c :: map VStr parts') with (map VStr (c :: parts')).
    rewrite (any_banned_strings (c :: parts') t Hin Hb). reflexivity. }
  split; [exact Hp|].
  cbn [normalize_steps]. rewrite Hp. cbn [bind].
  destruct (normalize_steps rest); reflexivity.
Qed.

Lemma operator_step_is_dropped_witness :
  _process_single_step (VStr "cat notes.txt | wc -l") = Ok None
  /\ normalize_steps [VStr "cat notes.txt | wc -l"; VStr "whoami"]
     = normalize_steps [VStr "whoami"].
Proof.
  apply (operator_step_is_dropped "cat notes.txt | wc -l"
           ["cat"; "notes.txt"; "|"; "wc"; "-l"] "|" [VStr "whoami"]).
  - reflexivity.
  - right. right. left. reflexivity.
  - reflexivity.
Defined.

(* ----------------------------------------------------------------- *)
(** ** What the executor reports and logs *)

Section ExecutorReports.

Context {W : Type} (env : Env W).

Lemma world_print (text : string) (s : sys W) : world (print text s) = world s.
Proof. reflexivity. Qed.

(** [_run_command_subprocess] asks the environment for the request of the
    command, in the world it was called in, and adds no audit line. *)
Lemma run_command_subprocess_outcome (command : string) (args : list string)
      (s : sys W) :
  fst (_run_command_subprocess env command args s)
  = fst (run_process env (spawn_request command args) (world s))
  /\ audit_lines (trace (snd (_run_command_subprocess env command args s)))
     = audit_lines (trace s).
Proof.
  destruct (trace_run_command_subprocess env command args s)
    as (prints & Htrace & Hprints).
  split.
  - unfold _run_command_subprocess, spawn_request, spawn, call.
    destruct (needs_shell command args); cbn [world emit print];
      destruct (run_process env _ (world s)); reflexivity.
  - rewrite Htrace. unfold audit_lines. rewrite !filter_app. cbn [filter is_audit].
    rewrite app_nil_r.
    assert (Hnone : filter is_audit prints = []).
    { clear Htrace. induction prints as [|e prints IH]; [reflexivity|].
      cbn [existsb] in Hprints. apply orb_false_iff in Hprints.
      destruct Hprints as [He Hrest]. cbn [filter]. rewrite He. now apply IH. }
    rewrite Hnone. apply app_nil_r.
Qed.

(** X10: when the classifier allows a command and the process cannot be
    started, [execute_command] returns exit code 1 with a message: the
    message names the command when the executable was not found, and
    carries the error text otherwise. No audit line is written. *)
Theorem spawn_failure_is_returned_not_raised :
  forall (command : string) (args : list string) (s : sys W),
    fst (validate_command_safety command args) = true ->
    match fst (run_process env (spawn_request command args) (world s)) with
    | FileNotFound =>
        fst (execute_command env command args s)
        = (1, "Error: Command not found: " ++ command ++ nl)
        /\ audit_lines (trace (snd (execute_command env command args s)))
           = audit_lines (trace s)
    | SpawnError msg =>
        fst (execute_command env command args s)
        = (1, "An unexpected error occurred: " ++ msg ++ nl)
        /\ audit_lines (trace (snd (execute_command env command args s)))
           = audit_lines (trace s)
    | Completed _ _ _ => True
    end.
Proof.
  intros command args s Hok. unfold execute_command.
  destruct (validate_command_safety command args) as [is_safe msg].
  cbn [fst] in Hok. subst is_safe. cbn [negb].
  destruct (run_command_subprocess_outcome command args s) as [Hout Haudit].
  destruct (_run_command_subprocess env command args s) as [outcome s1].
  cbn [fst snd] in Hout, Haudit. rewrite <- Hout.
  destruct outcome; cbn [fst snd]; auto.
Qed.

(** X11: when the process runs to its end, [execute_command] returns the
    exit code of the process with the formatted output, and writes one
    audit line carrying that exit code, followed by one warning line
    exactly when the exit code is not 0. *)
Theorem completed_command_is_audited :
  forall (command : string) (args : list string) (s : sys W)
         (rc : Z) (out err : string),
    fst (validate_command_safety command args) = true ->
    fst (run_process env (spawn_request command args) (world s))
    = Completed rc out err ->
    fst (execute_command env command args s)
    = (rc, _format_command_output env out err)
    /\ audit_lines (trace (snd (execute_command env command args s)))
       = (audit_lines (trace s)
          ++ AuditInfo ("EXECUTED: " ++ cmd_str command args
                        ++ " | EXIT_CODE: " ++ PyStr.of_Z rc)
          :: (if rc =? 0 then []
              else [AuditWarning ("COMMAND_FAILED: " ++ cmd_str command args
                                  ++ " | ERROR: "
                                  ++ _format_command_output env out err)]))%list.
Proof.
  intros command args s rc out err Hok Hrun. unfold execute_command.
  destruct (validate_command_safety command args) as [is_safe msg].
  cbn [fst] in Hok. subst is_safe. cbn [negb].
  destruct (run_command_subprocess_outcome command args s) as [Hout Haudit].
  destruct (_run_command_subprocess env command args s) as [outcome s1].
  cbn [fst snd] in Hout, Haudit. rewrite Hrun in Hout. subst outcome.
  cbn [fst snd]. split; [reflexivity|].
  unfold log_command_execution, audit_lines in *.
  destruct (rc =? 0); cbn [negb emit trace];
    rewrite ?filter_app; cbn [filter is_audit]; rewrite Haudit;
    rewrite <- ?app_assoc; reflexivity.
Qed.

End ExecutorReports.

Lemma spawn_failure_is_returned_not_raised_witness :
  fst (execute_command offline "ls" ["-la"] fresh)
  = (1, "Error: Command not found: " ++ "ls" ++ nl)
  /\ audit_lines (trace (snd (execute_command offline "ls" ["-la"] fresh)))
     = audit_lines (trace fresh).
Proof.
  exact (spawn_failure_is_returned_not_raised offline "ls" ["-la"] fresh eq_refl).
Defined.

Lemma completed_command_is_audited_witness :
  fst (execute_command babbling "ls" ["/nowhere"] fresh)
  = (2, _format_command_output babbling "" "no such file")
  /\ audit_lines (trace (snd (execute_command babbling "ls" ["/nowhere"] fresh)))
     = (audit_lines (trace fresh)
        ++ AuditInfo ("EXECUTED: " ++ cmd_str "ls" ["/nowhere"]
                      ++ " | EXIT_CODE: " ++ PyStr.of_Z 2)
        :: (if 2 =? 0 then []
            else [AuditWarning ("COMMAND_FAILED: " ++ cmd_str "ls" ["/nowhere"]
                                ++ " | ERROR: "
                                ++ _format_command_output babbling ""
                                                          "no such file")]))%list.
Proof.
  apply (completed_command_is_audited babbling "ls" ["/nowhere"] fresh
           2 "" "no such file"); reflexivity.
Defined.

(* ----------------------------------------------------------------- *)
(** ** Substring tests, spelled out *)

Lemma prefix_split (p s : string) :
  String.prefix p s = true -> exists rest, s = p ++ rest.
Proof.
  revert s. induction p as [|c p IH]; intros s H.
  - now exists s.
  - destruct s as [|c' s]; cbn in H; [discriminate|].
    destruct (ascii_dec c c') as [<-|]; [|discriminate].
    destruct (IH s H) as (rest & ->). now exists rest.
Qed.

Lemma contains_iff (p s : string) :
  PyStr.contains p s = true <-> exists before rest, s = before ++ p ++ rest.
Proof.
  split.
  - induction s as [|c s IH]; rewrite contains_unfold.
    + destruct (String.prefix p "") eqn:E; [|discriminate].
      intros _. destruct (prefix_split _ _ E) as (rest & Hr). now exists "", rest.
    + destruct (String.prefix p (String c s)) eqn:E.
      * intros _. destruct (prefix_split _ _ E) as (rest & Hr).
        now exists "", rest.
      * intros H. destruct (IH H) as (before & rest & ->).
        now exists (String c before), rest.
  - intros (before & rest & ->). apply contains_app.
Qed.

Lemma contains_inside (p before s rest : string) :
  PyStr.contains p s = true -> PyStr.contains p (before ++ s ++ rest) = true.
Proof.
  intros H. apply contains_iff in H. destruct H as (b & r & ->).
  apply contains_iff. exists (before ++ b), (r ++ rest).
  now rewrite !string_app_assoc.
Qed.

Lemma contains_part (p q s : string) :
  PyStr.contains (p ++ q) s = true -> PyStr.contains p s = true.
Proof.
  intros H. apply contains_iff in H. destruct H as (b & r & ->).
  apply contains_iff. exists b, (q ++ r). now rewrite !string_app_assoc.
Qed.

(** The shell is used exactly when the command and its arguments,
    joined by spaces, contain [|], [>], [<] or [&&]; a single [&] or a
    [;] does not switch to the shell. *)
Lemma needs_shell_iff :
  forall (command : string) (args : list string),
    needs_shell command args
    = (PyStr.contains "|" (PyStr.join " " (command :: args))
       || PyStr.contains ">" (PyStr.join " " (command :: args))
       || PyStr.contains "<" (PyStr.join " " (command :: args))
       || PyStr.contains "&&" (PyStr.join " " (command :: args)))
    /\ needs_shell "echo" ["a&b;c"] = false.
Proof.
  intros command args. split; [|reflexivity].
  unfold needs_shell, shell_operators. cbn [existsb].
  set (line := PyStr.join " " (command :: args)).
  destruct (PyStr.contains "||" line) eqn:E.
  - change "||" with ("|" ++ "|") in E. apply contains_part in E.
    rewrite E. reflexivity.
  - destruct (PyStr.contains "|" line), (PyStr.contains ">" line),
      (PyStr.contains "<" line), (PyStr.contains "&&" line); reflexivity.
Qed.

(** X12: the success rule reads the text of the record: a record whose
    exit code is 0 is a success, and so is a record whose exit code is 1
    as soon as the text [which] occurs anywhere in its command line. *)
Theorem success_rule_reads_the_text :
  forall (command : string) (args : list string) (rc : Z) (result : string),
    rc = 0 \/ (rc = 1 /\ PyStr.contains "which" (cmd_str command args) = true) ->
    _is_command_successful (content (executed_entry command args rc result))
    = true.
Proof.
  intros command args rc result [-> | [-> Hw]].
  - apply exit_zero_is_success.
  - unfold _is_command_successful, executed_entry, system_entry. cbn [content].
    destruct (PyStr.contains "Exit code: 0" _); [reflexivity|].
    change (PyStr.of_Z 1) with "1".
    rewrite (contains_inside "which" "Executed '" (cmd_str command args) _ Hw).
    replace ("Executed '" ++ cmd_str command args ++ "'. Exit code: " ++ "1"
             ++ ". Result:" ++ nl ++ result)
      with (("Executed '" ++ cmd_str command args ++ "'. ")
            ++ "Exit code: 1" ++ (". Result:" ++ nl ++ result))
      by (rewrite !string_app_assoc; reflexivity).
    now rewrite contains_app.
Qed.

Lemma success_rule_reads_the_text_witness :
  _is_command_successful
    (content (executed_entry "cat" ["which.txt"] 1 "no such file"))
  = true.
Proof.
  apply success_rule_reads_the_text. right. split; reflexivity.
Defined.

(* ----------------------------------------------------------------- *)
(** ** Every process of a session went through the classifier *)

Section Safety.

Context {W : Type} (env : Env W).

Lemma extends_refl (s : sys W) : extends_safely s s.
Proof. exists []. split; [now rewrite app_nil_r | constructor]. Qed.

Lemma extends_trans (s1 s2 s3 : sys W) :
  extends_safely s1 s2 -> extends_safely s2 s3 -> extends_safely s1 s3.
Proof.
  intros (a & Ha & Fa) (b & Hb & Fb). exists (a ++ b)%list. split.
  - rewrite Hb, Ha. now rewrite app_assoc.
  - apply Forall_app. now split.
Qed.

Lemma extends_emit (e : event) (s0 s : sys W) :
  approved_spawn e -> extends_safely s0 s -> extends_safely s0 (emit e s).
Proof.
  intros He H. apply (extends_trans s0 s); [assumption|].
  exists [e]. split; [reflexivity | now constructor].
Qed.

Lemma extends_print (text : string) (s0 s : sys W) :
  extends_safely s0 s -> extends_safely s0 (print text s).
Proof. apply extends_emit. exact I. Qed.

Lemma extends_same_trace (s0 s s' : sys W) :
  trace s' = trace s -> extends_safely s0 s -> extends_safely s0 s'.
Proof.
  intros Ht (a & Ha & Fa). exists a. split; [congruence | assumption].
Qed.

Lemma extends_call {A : Type} (f : W -> A * W) (s0 s : sys W) :
  extends_safely s0 s -> extends_safely s0 (snd (call f s)).
Proof. apply extends_same_trace, trace_call. Qed.

Lemma execute_command_safe (command : string) (args : list string)
      (s0 s : sys W) :
  extends_safely s0 s ->
  extends_safely s0 (snd (execute_command env command args s)).
Proof.
  intros H. unfold execute_command.
  destruct (validate_command_safety command args) as [is_safe msg] eqn:Hv.
  destruct is_safe; cbn [negb]; [|exact H].
  assert (Hrun : extends_safely s0
                   (snd (_run_command_subprocess env command args s))).
  { unfold _run_command_subprocess, spawn.
    assert (Hspawn : forall req, req = spawn_request command args ->
                                 approved_spawn (Spawned req)).
    { intros req ->. exists command, args. now rewrite Hv. }
    unfold spawn_request in Hspawn.
    destruct (needs_shell command args);
      apply extends_call, extends_emit; auto using extends_print. }
  destruct (_run_command_subprocess env command args s) as [outcome s1].
  cbn [snd] in Hrun.
  destruct outcome as [rc out err| |e]; cbn [snd]; try exact Hrun.
  unfold log_command_execution.
  destruct (negb (rc =? 0)); repeat apply extends_emit; try exact I; exact Hrun.
Qed.

Lemma confirm_sudo_safe (s0 s : sys W) :
  extends_safely s0 s ->
  extends_safely s0 (snd (confirm_sudo_execution env s)).
Proof.
  intros H. unfold confirm_sudo_execution.
  pose proof (extends_call (stdin_isatty env) s0 s H) as H1.
  destruct (call (stdin_isatty env) s) as [tty s1]. cbn [snd] in H1.
  destruct tty; cbn [negb snd]; [|exact H1].
  pose proof (extends_call (read_input env "🔒 Confirm sudo execution? [y/N]: ")
                s0 _ (extends_print "🔑 Sudo command detected - may require password."
                                    s0 s1 H1)) as H2.
  destruct (call _ (print _ s1)) as [line s2]. cbn [snd] in H2.
  destruct line; cbn [snd]; [exact H2 | now apply extends_print].
Qed.

Lemma execute_plan_steps_safe (steps : list Step) :
  forall (h : history) (s0 s : sys W),
    extends_safely s0 s ->
    extends_safely s0 (snd (execute_plan_steps env steps h s)).
Proof.
  induction steps as [|step rest IH]; intros h s0 s H; [exact H|].
  cbn [execute_plan_steps].
  destruct (String.eqb (command step) ""); [now apply IH|].
  assert (Hd : extends_safely s0
                 (snd (if String.eqb (command step) "sudo"
                       then let '(ok, s1) := confirm_sudo_execution env s in
                            (negb ok, s1)
                       else (false, s)))).
  { destruct (String.eqb (command step) "sudo"); [|exact H].
    pose proof (confirm_sudo_safe s0 s H) as Hc.
    now destruct (confirm_sudo_execution env s). }
  destruct (if String.eqb (command step) "sudo" then _ else _)
    as [declined s1]. cbn [snd] in Hd.
  destruct declined; [exact Hd|].
  pose proof (execute_command_safe (command step) (args step) s0 s1 Hd) as He.
  destruct (execute_command env (command step) (args step) s1)
    as [[rc result] s2]. cbn [snd] in He.
  destruct (negb (rc =? 0)); cbn [snd].
  - now repeat apply extends_print.
  - apply IH. now apply extends_print.
Qed.

Lemma print_plan_lines_safe (steps : list Step) :
  forall (i : nat) (s0 s : sys W),
    extends_safely s0 s -> extends_safely s0 (print_plan_lines i steps s).
Proof.
  induction steps as [|st rest IH]; intros i s0 s H; [exact H|].
  cbn [print_plan_lines]. apply IH. now apply extends_print.
Qed.

Lemma display_plan_steps_safe (steps : list Step) :
  forall (i : nat) (s0 s : sys W),
    extends_safely s0 s -> extends_safely s0 (display_plan_steps i steps s).
Proof.
  induction steps as [|st rest IH]; intros i s0 s H; [exact H|].
  cbn [display_plan_steps]. apply IH. unfold _display_plan_step.
  destruct (validate_command_safety (command st) (args st)) as [is_safe msg].
  destruct is_safe; cbn [negb]; now repeat apply extends_print.
Qed.

Lemma approve_plan_safe (steps : list Step) (require_approval : bool)
      (s0 s : sys W) :
  extends_safely s0 s ->
  extends_safely s0 (snd (approve_plan env steps require_approval s)).
Proof.
  intros H. unfold approve_plan.
  destruct require_approval; cbn [negb snd]; [|exact H].
  pose proof (extends_call (stdin_isatty env) s0 s H) as H1.
  destruct (call (stdin_isatty env) s) as [tty s1]. cbn [snd] in H1.
  destruct tty; cbn [negb snd]; [|exact H1].
  unfold _get_user_approval.
  match goal with
  | |- context [call ?f ?st] =>
      pose proof (extends_call f s0 st
                    (display_plan_steps_safe steps 0 s0 _
                       (extends_print _ s0 s1 H1))) as H2;
      destruct (call f st) as [line s2]
  end.
  cbn [snd] in H2. destruct line as [user_input|]; [|exact H2].
  destruct (PyStr.mem user_input ["y"; "yes"]); [exact H2|].
  destruct (PyStr.mem user_input ["s"; "skip"]); exact H2.
Qed.

Lemma handle_plan_execution_safe (plan_data : value) (h : history)
      (require_approval : bool) (s0 s : sys W) :
  extends_safely s0 s ->
  ends_safely s0 (handle_plan_execution env plan_data h require_approval s).
Proof.
  intros H. unfold handle_plan_execution.
  destruct (str_in "error" plan_data) as [[|]|e]; cbn [ends_safely];
    [| |exact H].
  { destruct (index_key "error" plan_data) as [err|e]; cbn [ends_safely];
      [now apply extends_print | exact H]. }
  destruct (has_plan <- str_in "plan" plan_data;;
            (if has_plan then index_key "plan" plan_data else Ok VNone))
    as [v|e]; cbn [ends_safely]; [|exact H].
  destruct v as [| | | | |steps|]; cbn [ends_safely];
    try (now apply extends_print).
  destruct (typed_steps steps) as [typed|]; cbn [ends_safely]; [|exact H].
  pose proof (approve_plan_safe typed require_approval s0 _
                (extends_print "" s0 _
                   (print_plan_lines_safe typed 0 s0 _
                      (extends_print "📋 Execution Plan:" s0 s H)))) as Ha.
  destruct (approve_plan env typed require_approval _) as [approved s1].
  cbn [snd] in Ha.
  destruct approved; cbn [ends_safely]; try (now apply extends_print).
  pose proof (execute_plan_steps_safe typed h s0 s1 Ha) as He.
  now destruct (execute_plan_steps env typed h s1) as [r s2].
Qed.





Lemma handle_execution_phase_safe (plan_json_str : string) (h : history)
      (require_approval : bool) (s0 s : sys W) :
  extends_safely s0 s ->
  ends_safely s0 (_handle_execution_phase env plan_json_str h require_approval s).
Proof.
  intros H. unfold _handle_execution_phase.
  destruct (json_loads env plan_json_str) as [plan_data|]; cbn [ends_safely];
    [|now apply extends_print].
  destruct (normalize_plan plan_data) as [normalized|e]; cbn [ends_safely];
    [|exact H].
  now apply handle_plan_execution_safe.
Qed.



(** The execution phase of a pass, the only part of the loop that spawns,
    always ends, and what it adds to the trace holds approved spawns
    only. *)
Lemma execution_phase_always_ends (plan_json_str : string) (h : history)
      (require_approval : bool) (s : sys W) :
  ends_safely s (_handle_execution_phase env plan_json_str h require_approval s).
Proof. apply handle_execution_phase_safe, extends_refl. Qed.







End Safety.

(* ----------------------------------------------------------------- *)
(** ** What one run of a plan does to the history *)

Section PlanHistory.

Context {W : Type} (env : Env W).

(** X14: a run of [execute_plan_steps] only appends to the history, at
    most one entry per step. When it returns [True] it has appended
    exactly one entry per step, each one a skipped step or an execution
    that exited with 0; when it returns [False] it has appended at least
    one entry. *)
Theorem plan_run_appends_one_entry_per_step :
  forall (steps : list Step) (h : history) (s : sys W),
  exists added,
    snd (fst (execute_plan_steps env steps h s)) = (h ++ added)%list
    /\ (length added <= length steps)%nat
    /\ (fst (fst (execute_plan_steps env steps h s)) = true ->
        length added = length steps /\ Forall benign added)
    /\ (fst (fst (execute_plan_steps env steps h s)) = false -> added <> []).
Proof.
  induction steps as [|step rest IH]; intros h s.
  - exists []. cbn. rewrite app_nil_r. repeat split; auto; discriminate.
  - cbn [execute_plan_steps].
    destruct (String.eqb (command step) "").
    { destruct (IH (append h (system_entry "Skipped invalid step in plan.")) s)
        as (added & Hh & Hlen & Hok & Hfail).
      exists (system_entry "Skipped invalid step in plan." :: added).
      split; [|split; [|split]].
      - rewrite Hh. unfold append. now rewrite <- app_assoc.
      - cbn [length]. lia.
      - intros Ht. destruct (Hok Ht) as [Hl Hb]. split; [cbn [length]; lia|].
        constructor; [now left | assumption].
      - discriminate. }
    destruct (if String.eqb (command step) "sudo"
              then let '(ok, s0) := confirm_sudo_execution env s in (negb ok, s0)
              else (false, s)) as [declined s1].
    destruct declined.
    { eexists [_]. cbn. split; [reflexivity|].
      split; [lia|]. split; [discriminate | discriminate]. }
    destruct (execute_command env (command step) (args step) s1)
      as [[rc result] s2].
    destruct (negb (rc =? 0)) eqn:Hrc.
    { eexists [_]. cbn. split; [reflexivity|].
      split; [lia|]. split; [discriminate | discriminate]. }
    apply negb_false_iff, Z.eqb_eq in Hrc. subst rc.
    destruct (IH (append h (executed_entry (command step) (args step) 0 result))
                 (print result s2)) as (added & Hh & Hlen & Hok & Hfail).
    exists (executed_entry (command step) (args step) 0 result :: added).
    split; [|split; [|split]].
    + rewrite Hh. unfold append. now rewrite <- app_assoc.
    + cbn [length]. lia.
    + intros Ht. destruct (Hok Ht) as [Hl Hb]. split; [cbn [length]; lia|].
      constructor; [|assumption]. right. now eexists _, _, _.
    + discriminate.
Qed.

(** X15: a plan that carries an ["error"] key is never run, even when it
    also carries steps: [handle_plan_execution] returns [False], appends
    one system entry with the error, and the state only gains a print. *)
Theorem error_key_wins_over_plan :
  forall (d : dict) (err : value) (h : history) (require_approval : bool)
         (s : sys W),
    dict_get "error" d = Some err ->
    handle_plan_execution env (VDict d) h require_approval s
    = Returned (false,
                (h ++ [system_entry ("AI service error: "
                                     ++ format_value env err)])%list)
               (print ("❌ Error from AI service: " ++ format_value env err) s).
Proof.
  intros d err h require_approval s Hg. unfold handle_plan_execution.
  cbn [str_in index_key]. unfold has_key. rewrite Hg. reflexivity.
Qed.

End PlanHistory.

Lemma error_key_wins_over_plan_witness :
  handle_plan_execution offline
    (VDict [("plan", VList [step_dict (VStr "ls") []]);
            ("error", VStr "partial answer")])
    [user_entry "list files"] false fresh
  = Returned (false,
              [user_entry "list files";
               system_entry "AI service error: partial answer"])
             (print "❌ Error from AI service: partial answer" fresh).
Proof.
  apply (error_key_wins_over_plan offline
           [("plan", VList [step_dict (VStr "ls") []]);
            ("error", VStr "partial answer")] (VStr "partial answer")).
  reflexivity.
Defined.

(* ----------------------------------------------------------------- *)
(** ** The shape of a compressed history *)

Section CompressionShape.

Context {W : Type} (env : Env W).

Lemma splice_ends (first note : entry) (h : history) :
  (5 < length (first :: h))%nat ->
  last_n 3 (first :: note :: last_n 3 (first :: h)) = last_n 3 (first :: h)
  /\ length (first :: note :: last_n 3 (first :: h)) = 5%nat.
Proof.
  intros Hlen.
  pose proof (length_last_n 3 (first :: h)) as Hl.
  assert (H3 : length (last_n 3 (first :: h)) = 3%nat) by lia.
  split; [|cbn [length]; lia].
  unfold last_n at 1. cbn [length]. rewrite H3. reflexivity.
Qed.

(** X16: whenever [summarize_old_history] returns, the history it returns
    begins with the first entry of the one it was given (the user's
    request) and ends with the same last three entries; it is either the
    history it was given or a history of five entries, and never longer
    than the one it was given. *)
Theorem compression_keeps_request_and_tail :
  forall (fuel : nat) (h h' : history) (s s' : sys W),
    summarize_old_history env fuel h s = Some (h', s') ->
    firstn 1 h' = firstn 1 h
    /\ last_n 3 h' = last_n 3 h
    /\ (h' = h \/ length h' = 5%nat)
    /\ (length h' <= length h)%nat.
Proof.
  induction fuel as [|fuel IH]; intros h h' s s' Hs; [discriminate|].
  assert (Hsame : forall s1, Some (h, s1) = Some (h', s') ->
                             firstn 1 h' = firstn 1 h
                             /\ last_n 3 h' = last_n 3 h
                             /\ (h' = h \/ length h' = 5%nat)
                             /\ (length h' <= length h)%nat).
  { intros s1 E. injection E as <- _. repeat split; auto. }
  cbn [summarize_old_history] in Hs.
  destruct (length h <=? 5)%nat eqn:Hlen; [now apply (Hsame s)|].
  apply Nat.leb_gt in Hlen.
  destruct (middle h) as [|m rest]; [now apply (Hsame s)|].
  destruct (call _ _) as [response s1].
  destruct response as [summary|].
  - destruct h as [|first h]; [now apply (Hsame s1)|].
    injection Hs as <- _.
    destruct (splice_ends first (summary_note summary) h Hlen) as [Hl H5].
    repeat split; auto. lia.
  - unfold compress_history_with in Hs.
    destruct (estimate_context_size h <=? MAX_CONTEXT_SIZE)%nat;
      [now apply (Hsame s1)|].
    exact (IH h h' s1 s' Hs).
Qed.

End CompressionShape.

Lemma compression_keeps_request_and_tail_witness :
  firstn 1 [ user_entry "install vim";
             summary_note "two plans could not be parsed";
             assistant_entry "plan 2";
             system_entry "result 2";
             assistant_entry "plan 3" ]
  = firstn 1 six_entries
  /\ last_n 3 [ user_entry "install vim";
                summary_note "two plans could not be parsed";
                assistant_entry "plan 2";
                system_entry "result 2";
                assistant_entry "plan 3" ]
     = last_n 3 six_entries.
Proof.
  destruct (compression_keeps_request_and_tail babbling 1 six_entries
              [ user_entry "install vim";
                summary_note "two plans could not be parsed";
                assistant_entry "plan 2";
                system_entry "result 2";
                assistant_entry "plan 3" ]
              fresh
              (snd (call (post_summary babbling (middle six_entries))
                         (emit (SummaryRequested (middle six_entries)) fresh)))
              eq_refl) as (H1 & H2 & _).
  split; assumption.
Defined.

Lemma json_items_len_app (h : history) (e : entry) :
  json_items_len (h ++ [e])%list
  = (json_items_len h + json_entry_len e
     + match h with [] => 0 | _ => 2 end)%nat.
Proof.
  induction h as [|x h IH]; [cbn; lia|].
  destruct h as [|y h]; [cbn; lia|].
  change ((x :: y :: h) ++ [e])%list with (x :: ((y :: h) ++ [e]))%list.
  change (json_items_len (x :: (y :: h) ++ [e])%list)
    with (json_entry_len x + 2 + json_items_len ((y :: h) ++ [e])%list)%nat.
  rewrite IH.
  change (json_items_len (x :: y :: h))
    with (json_entry_len x + 2 + json_items_len (y :: h))%nat.
  lia.
Qed.

Lemma json_entry_len_min (e : entry) : (31 <= json_entry_len e)%nat.
Proof.
  unfold json_entry_len.
  assert (Hr : json_str_len "role" = 6%nat) by reflexivity.
  assert (Hc : json_str_len "content" = 9%nat) by reflexivity.
  assert (Hn : (6 <= json_str_len (role_name (entry_role e)))%nat).
  { destruct (entry_role e); vm_compute; lia. }
  assert (Ht : (2 <= json_str_len (content e))%nat).
  { unfold json_str_len. lia. }
  rewrite Hr, Hc. lia.
Qed.

(** X17: appending an entry makes the estimated context size grow by the
    serialised length of that entry, plus two for the separator when the
    history was not empty: at least 31 characters each time. *)
Theorem context_size_grows_with_each_entry :
  forall (h : history) (e : entry),
    estimate_context_size (append h e)
    = (estimate_context_size h + json_entry_len e
       + match h with [] => 0 | _ => 2 end)%nat
    /\ (estimate_context_size h + 31 <= estimate_context_size (append h e))%nat.
Proof.
  intros h e. unfold estimate_context_size, append.
  rewrite json_items_len_app. pose proof (json_entry_len_min e).
  split; lia.
Qed.

(* ----------------------------------------------------------------- *)
(** ** The counter across passes *)

Section CounterFacts.

Context {W : Type} (env : Env W).

Lemma iteration_control_counter_values (fuel : nat) (iteration : Z)
      (h h' : history) (s s' : sys W) (c : bool) (iteration' : Z) :
  handle_iteration_control env fuel iteration h s
  = Returned (c, h', iteration') s' ->
  iteration' = 0 \/ iteration' = iteration.
Proof.
  unfold handle_iteration_control.
  destruct (if 3 <=? iteration then call (stdin_isatty env) s else (false, s))
    as [interactive s1].
  destruct interactive.
  - destruct (get_user_continuation_choice env s1) as [user_input s2].
    intros H.
    pose proof (handle_user_choice_counter env fuel user_input h iteration s2)
      as Hu.
    rewrite H in Hu. destruct Hu as [Hu | (Hu & _)]; auto.
  - destruct (5 <=? iteration).
    + destruct (summarize_old_history env fuel h _) as [[h1 s1']|];
        [|discriminate].
      intros H. injection H as _ _ <- _. now left.
    + intros H. injection H as _ _ <- _. now right.
Qed.

Lemma iteration_control_reset_needs_three (fuel : nat) (iteration : Z)
      (h h' : history) (s s' : sys W) (c : bool) (iteration' : Z) :
  handle_iteration_control env fuel iteration h s
  = Returned (c, h', iteration') s' ->
  iteration' = iteration \/ (iteration' = 0 /\ 3 <= iteration).
Proof.
  intros H.
  destruct (iteration_control_counter_values _ _ _ _ _ _ _ _ H) as [-> | ->];
    [|now left].
  destruct (3 <=? iteration) eqn:E3; [apply Z.leb_le in E3; now right|].
  left. revert H. unfold handle_iteration_control. rewrite E3.
  apply Z.leb_gt in E3.
  destruct (5 <=? iteration) eqn:E5; [apply Z.leb_le in E5; lia|].
  intros H. now injection H as _ _ <- _.
Qed.

(** X18: a pass that goes back to the top of the loop leaves the counter
    one higher than it found it, or at 0, and at 0 only when it had
    reached 3. Hence after any number of passes from 0 the counter is
    never negative and never above the number of passes made. *)
Theorem counter_steps_by_one_or_resets :
  (forall (fuel : nat) (user_prompt : string) (iteration : Z)
          (h h' : history) (s s' : sys W) (iteration' : Z),
      main_pass env fuel user_prompt iteration h s
      = Returned (Continue iteration' h') s' ->
      iteration' = iteration + 1 \/ (iteration' = 0 /\ 3 <= iteration + 1))
  /\ (forall (passes fuel : nat) (user_prompt : string)
             (h h' : history) (s s' : sys W) (iteration' : Z),
         main_loop env passes fuel user_prompt 0 h s
         = Returned (Continue iteration' h') s' ->
         0 <= iteration' <= Z.of_nat passes).
Proof.
  assert (Hpass : forall (fuel : nat) (user_prompt : string) (iteration : Z)
                         (h h' : history) (s s' : sys W) (iteration' : Z),
             main_pass env fuel user_prompt iteration h s
             = Returned (Continue iteration' h') s' ->
             iteration' = iteration + 1
             \/ (iteration' = 0 /\ 3 <= iteration + 1)).
  { intros fuel user_prompt iteration h h' s s' iteration'. unfold main_pass.
    destruct (_handle_planning_phase env fuel user_prompt h s)
      as [[[plan_json_str full] h1] s1|e s1|s1|]; try discriminate.
    destruct (_handle_execution_phase env plan_json_str h1 _ s1)
      as [[execution_success h2] s2|e s2|s2|]; try discriminate.
    destruct execution_success; cbn [negb].
    2:{ intros H. injection H as <- _ _. now left. }
    destruct (_check_task_completion env h2 user_prompt s2)
      as [[complete h3] s3].
    destruct complete; [discriminate|].
    destruct (handle_iteration_control env fuel (iteration + 1) h3 s3)
      as [[[should_continue h4] it4] s4|e s4|s4|] eqn:Hc; try discriminate.
    destruct should_continue; cbn [negb]; [|discriminate].
    destruct (10 <? it4); [discriminate|].
    intros H. injection H as <- _ _.
    destruct (iteration_control_reset_needs_three _ _ _ _ _ _ _ _ Hc);
      [now left | now right]. }
  split; [exact Hpass|].
  intros passes fuel user_prompt.
  assert (Hloop : forall (iteration : Z) (h h' : history) (s s' : sys W)
                         (iteration' : Z),
             0 <= iteration ->
             main_loop env passes fuel user_prompt iteration h s
             = Returned (Continue iteration' h') s' ->
             0 <= iteration' <= iteration + Z.of_nat passes).
  { induction passes as [|passes IH];
      intros iteration h h' s s' iteration' Hpos H.
    - cbn in H. injection H as <- _ _. lia.
    - cbn [main_loop] in H.
      destruct (main_pass env fuel user_prompt iteration h s)
        as [[it1 h1|h1] s1|e s1|s1|] eqn:Hp; try discriminate.
      apply Hpass in Hp.
      assert (0 <= it1 <= iteration + 1) by lia.
      specialize (IH it1 h1 h' s1 s' iteration' ltac:(lia) H). lia. }
  intros h h' s s' iteration' H.
  specialize (Hloop 0 h h' s s' iteration' ltac:(lia) H). lia.
Qed.

End CounterFacts.

Lemma counter_steps_by_one_or_resets_witness :
  0 <= 2 <= Z.of_nat 2.
Proof.
  apply (proj2 (counter_steps_by_one_or_resets babbling) 2%nat 1%nat
               "install vim" [user_entry "install vim"]
               (final_history (main_loop babbling 2 1 "install vim" 0
                                         [user_entry "install vim"] fresh))
               fresh
               (final_state (main_loop babbling 2 1 "install vim" 0
                                       [user_entry "install vim"] fresh))
               2).
  vm_compute. reflexivity.
Defined.

(* ----------------------------------------------------------------- *)
(** ** The command line *)

Import Cli.

Lemma process_flags_loop_shape (n : nat) :
  forall (args : list string) (model : string) (require_approval : bool),
    (length args <= n)%nat ->
    match process_flags_loop model require_approval args with
    | Parsed (_, _, remaining) =>
        exists flags,
          args = (flags ++ remaining)%list
          /\ only_flags flags = true
          /\ String.prefix "--" (hd "" remaining) = false
    | Exit status _ => status = 1
    end.
Proof.
  induction n as [|n IH]; intros args model require_approval Hlen.
  - destruct args; [|cbn in Hlen; lia].
    cbn. exists []. now repeat split.
  - destruct args as [|flag rest].
    { cbn. exists []. now repeat split. }
    cbn [process_flags_loop].
    destruct (String.prefix "--" flag) eqn:Hp.
    2:{ exists []. now repeat split. }
    destruct (String.eqb flag "--approve") eqn:Ea.
    + specialize (IH rest model true ltac:(cbn in Hlen; lia)).
      destruct (process_flags_loop model true rest) as [[[m r] remaining]|];
        [|exact IH].
      destruct IH as (flags & -> & Hf & Hr).
      exists (flag :: flags). repeat split; [|exact Hr].
      cbn [only_flags]. now rewrite Ea.
    + destruct (String.eqb flag "--model") eqn:Em; [|reflexivity].
      destruct rest as [|name rest']; [reflexivity|].
      specialize (IH rest' name require_approval ltac:(cbn in Hlen; lia)).
      destruct (process_flags_loop name require_approval rest')
        as [[[m r] remaining]|]; [|exact IH].
      destruct IH as (flags & -> & Hf & Hr).
      exists (flag :: name :: flags). repeat split; [|exact Hr].
      cbn [only_flags]. now rewrite Ea, Em.
Qed.

(** X19: when [parse_command_line_args] returns, the arguments after the
    program name are a run of flags ([--approve], [--model NAME])
    followed by at least one word, the first of which does not start
    with [--]; the prompt is those words joined by spaces, so a flag
    written after the first word of the prompt is part of the prompt.
    When it exits instead, the status is 1. *)
Theorem parsed_command_line_shape :
  forall argv : list string,
    match parse_command_line_args argv with
    | Parsed (user_prompt, _, _) =>
        exists flags words,
          tl argv = (flags ++ words)%list
          /\ only_flags flags = true
          /\ words <> []
          /\ String.prefix "--" (hd "" words) = false
          /\ user_prompt = PyStr.join " " words
    | Exit status _ => status = 1
    end.
Proof.
  intros argv. unfold parse_command_line_args.
  destruct (length argv <? 2)%nat; [reflexivity|].
  pose proof (process_flags_loop_shape (length (tl argv)) (tl argv)
                "smollm2:1.7b" false (le_n _)) as H.
  unfold _process_flags.
  destruct (process_flags_loop "smollm2:1.7b" false (tl argv))
    as [[[model require_approval] remaining]|status printed]; [|exact H].
  destruct H as (flags & Hsplit & Hf & Hr).
  destruct remaining as [|w remaining]; [reflexivity|].
  exists flags, (w :: remaining). repeat split; try assumption. discriminate.
Qed.

(** The flags [--approve] and [--model NAME] are taken only from the
    front of the command line. The words from the first one that does
    not start with [--] on are the prompt, whatever they are. *)
Lemma prompt_starts_at_first_plain_word :
  forall (program word : string) (rest : list string),
    String.prefix "--" word = false ->
    parse_command_line_args (program :: "--approve" :: "--model" :: "m" :: word :: rest)
    = Parsed (PyStr.join " " (word :: rest), "m", true)
    /\ parse_command_line_args (program :: word :: rest)
       = Parsed (PyStr.join " " (word :: rest), "smollm2:1.7b", false).
Proof.
  intros program word rest Hw. unfold parse_command_line_args, _process_flags.
  cbn [length Nat.ltb Nat.leb tl process_flags_loop String.prefix String.eqb].
  cbn. rewrite Hw. split; reflexivity.
Qed.

Lemma prompt_starts_at_first_plain_word_witness :
  parse_command_line_args ["main_agent.py"; "install"; "vim"; "--approve"]
  = Parsed (PyStr.join " " ["install"; "vim"; "--approve"], "smollm2:1.7b", false).
Proof.
  apply (proj2 (prompt_starts_at_first_plain_word "main_agent.py" "install"
                  ["vim"; "--approve"] eq_refl)).
Defined.

(* ----------------------------------------------------------------- *)
(** ** The balanced-brace scan *)

Import Extraction.

Lemma length_string_app (a b : string) :
  String.length (a ++ b) = (String.length a + String.length b)%nat.
Proof.
  induction a as [|c a IH]; cbn; [reflexivity | now rewrite IH].
Qed.

Lemma substring_skip (pre s : string) (n : nat) :
  substring (String.length pre) n (pre ++ s) = substring 0 n s.
Proof.
  induction pre as [|c pre IH]; cbn; [reflexivity | exact IH].
Qed.

Lemma substring_front (x rest : string) :
  substring 0 (String.length x) (x ++ rest) = x.
Proof.
  induction x as [|c x IH]; cbn.
  - now destruct rest.
  - now rewrite IH.
Qed.

Lemma slice_piece (pre piece rest : string) :
  slice (pre ++ piece ++ rest) (Z.of_nat (String.length pre))
        (Z.of_nat (String.length pre) + Z.of_nat (String.length piece))
  = piece.
Proof.
  unfold slice.
  replace (Z.of_nat (String.length pre) + Z.of_nat (String.length piece)
           - Z.of_nat (String.length pre))
    with (Z.of_nat (String.length piece)) by lia.
  rewrite !Nat2Z.id. rewrite substring_skip. apply substring_front.
Qed.

(** The loop goes over a piece without a brace outside string literals
    and changes nothing but its string state. *)
Lemma scan_plain (piece rest text : string) (state : BraceState) :
  forall (i : Z) (esc in_str : bool),
    braces_only_in_strings piece esc in_str = true ->
    scan (piece ++ rest) i esc in_str state text
    = scan rest (i + Z.of_nat (String.length piece))
           (fst (string_state_after piece esc in_str))
           (snd (string_state_after piece esc in_str)) state text.
Proof.
  induction piece as [|ch piece IH]; intros i esc in_str Hp.
  - cbn. now rewrite Z.add_0_r.
  - cbn [String.append scan braces_only_in_strings string_state_after
         String.length] in *.
    destruct (_update_string_state ch esc in_str) as [esc1 in1].
    apply andb_true_iff in Hp. destruct Hp as [Hch Hp].
    replace (i + Z.of_nat (S (String.length piece)))
      with (i + 1 + Z.of_nat (String.length piece)) by lia.
    destruct (_should_skip_char ch esc1 in1) as [should_skip x].
    cbn [fst] in Hch. destruct should_skip; [now apply IH|].
    cbn [orb] in Hch. unfold _process_brace_character.
    apply negb_true_iff, orb_false_iff in Hch. destruct Hch as [-> ->].
    now apply IH.
Qed.

Lemma scan_open (rest text : string) (i : Z) (esc : bool) (state : BraceState) :
  scan (String open_brace rest) i esc false state text
  = scan rest (i + 1) false false
         {| depth := depth state + 1;
            start := if depth state =? 0 then i else -1 |} text.
Proof. reflexivity. Qed.

Lemma scan_close (rest text : string) (i : Z) (esc : bool) (state : BraceState) :
  scan (String close_brace rest) i esc false state text
  = if (depth state - 1 =? 0) && negb (start state =? -1)
    then if negb (String.eqb (slice text (start state) (i + 1)) "")
         then Some (slice text (start state) (i + 1))
         else scan rest (i + 1) false false
                   {| depth := depth state - 1; start := start state |} text
    else scan rest (i + 1) false false
              {| depth := depth state - 1; start := start state |} text.
Proof.
  cbn [scan]. cbn [_update_string_state _should_skip_char].
  change (_update_string_state close_brace esc false) with (false, false).
  cbn [_should_skip_char]. cbn.
  unfold _handle_closing_brace.
  now destruct ((depth state - 1 =? 0) && negb (start state =? -1)).
Qed.

(** X20: a brace group that holds no further brace outside its string
    literals, and is the first brace of the text outside string literals,
    is what the scan returns, from its opening to its closing brace. *)
Theorem flat_brace_group_is_extracted :
  forall before body rest : string,
    plain_piece before -> plain_piece body ->
    _extract_with_balanced_braces
      (before ++ String open_brace (body ++ String close_brace rest))
    = Some (String open_brace (body ++ String close_brace "")).
Proof.
  intros before body rest [Hb1 Hb2] [Hy1 Hy2].
  unfold _extract_with_balanced_braces.
  set (text := before ++ String open_brace (body ++ String close_brace rest)).
  unfold text at 1.
  rewrite (scan_plain before _ text _ 0 false false Hb1). rewrite Hb2.
  rewrite scan_open. cbn [depth start Z.eqb Z.add].
  rewrite (scan_plain body _ text _ _ false false Hy1). rewrite Hy2.
  rewrite scan_close. cbn [depth start].
  assert (Hcond : (1 - 1 =? 0)
                  && negb (Z.of_nat (String.length before) =? -1) = true).
  { destruct (Z.of_nat (String.length before) =? -1) eqn:E; [|reflexivity].
    apply Z.eqb_eq in E. lia. }
  rewrite Hcond.
  assert (Hs : slice text (Z.of_nat (String.length before))
                     (Z.of_nat (String.length before) + 1
                      + Z.of_nat (String.length body) + 1)
               = String open_brace (body ++ String close_brace "")).
  { pose proof (slice_piece before
                  (String open_brace (body ++ String close_brace "")) rest)
      as Hp.
    replace (before ++ String open_brace (body ++ String close_brace "") ++ rest)
      with text in Hp.
    2:{ unfold text. cbn [String.append]. rewrite string_app_assoc.
        reflexivity. }
    rewrite <- Hp. f_equal.
    cbn [String.length]. rewrite length_string_app. cbn [String.length]. lia. }
  rewrite Hs. reflexivity.
Qed.

(** X21: a brace group that holds another brace group is not returned:
    the inner opening brace makes the scan forget where the outer group
    began. On a text made of one such group, as a plan with a step is,
    the scan finds nothing. *)
Theorem nested_brace_group_is_not_extracted :
  forall before a b c rest : string,
    plain_piece before -> plain_piece a -> plain_piece b -> plain_piece c ->
    braces_only_in_strings rest false false = true ->
    _extract_with_balanced_braces
      (before
       ++ String open_brace
            (a ++ String open_brace
                    (b ++ String close_brace
                            (c ++ String close_brace rest))))
    = None.
Proof.
  intros before a b c rest [Hb1 Hb2] [Ha1 Ha2] [Hi1 Hi2] [Hc1 Hc2] Hr.
  unfold _extract_with_balanced_braces.
  set (text := before ++ _). unfold text at 1.
  rewrite (scan_plain before _ text _ 0 false false Hb1). rewrite Hb2.
  rewrite scan_open. cbn [depth start Z.eqb].
  rewrite (scan_plain a _ text _ _ false false Ha1). rewrite Ha2.
  rewrite scan_open. cbn [depth start].
  replace (0 + 1 =? 0) with false by reflexivity.
  rewrite (scan_plain b _ text _ _ false false Hi1). rewrite Hi2.
  rewrite scan_close. cbn [depth start].
  replace (0 + 1 + 1 - 1 =? 0) with false by reflexivity. cbn [andb].
  rewrite (scan_plain c _ text _ _ false false Hc1). rewrite Hc2.
  rewrite scan_close. cbn [depth start].
  replace (-1 =? -1) with true by reflexivity.
  rewrite andb_false_r.
  pose proof (scan_plain rest "" text) as Hrest.
  rewrite string_app_nil_r in Hrest. rewrite (Hrest _ _ false false Hr).
  reflexivity.
Qed.

Lemma flat_brace_group_is_extracted_witness :
  _extract_with_balanced_braces
    ("Sorry: "
     ++ String open_brace
          ((PyStr.dq ++ "error" ++ PyStr.dq ++ ": " ++ PyStr.dq
            ++ "no {plan} found" ++ PyStr.dq)
           ++ String close_brace " and so on"))
  = Some (String open_brace
            ((PyStr.dq ++ "error" ++ PyStr.dq ++ ": " ++ PyStr.dq
              ++ "no {plan} found" ++ PyStr.dq)
             ++ String close_brace "")).
Proof.
  apply flat_brace_group_is_extracted; split; reflexivity.
Defined.

Lemma nested_brace_group_is_not_extracted_witness :
  _extract_with_balanced_braces
    (""
     ++ String open_brace
          ((PyStr.dq ++ "plan" ++ PyStr.dq ++ ": [")
           ++ String open_brace
                ((PyStr.dq ++ "command" ++ PyStr.dq ++ ": " ++ PyStr.dq ++ "ls"
                  ++ PyStr.dq ++ ", " ++ PyStr.dq ++ "args" ++ PyStr.dq ++ ": []")
                 ++ String close_brace
                      ("]" ++ String close_brace ""))))
  = None.
Proof.
  apply nested_brace_group_is_not_extracted;
    try (split; reflexivity); reflexivity.
Defined.
